(** * txdarn.protocol: the SockJS request-session core, embedded in Rocq

    The development follows [txdarn/protocol.py]:

    - byte strings, JSON values and the compact encoder behind [sockJSJSON];
    - Python exceptions and a state-and-exception monad over the session;
    - [TimeoutClock], [HeartbeatClock], the two automat machines
      ([SockJSProtocolMachine], [RequestSessionMachine]) with their
      transition tables as data;
    - [SockJSWireProtocolWrapper], [RequestSessionProtocolWrapper] and its
      subclasses [XHRSession] and [XHRStreamingSession];
    - [WebSocketProtocolWrapper] and [SessionHouse].

    Objects mutated in place (the session, the requests it writes to, the
    registry of sessions) live in explicit stores; a method is a function
    from the store to the new store and either a value or the exception it
    raised.  An exception leaves the mutations done before it in place, as
    in Python. *)

From Stdlib Require Import ZArith String Ascii List DecimalString.
From stdpp Require Import base gmap list strings.

Set Warnings "-register-all".
Open Scope string_scope.

(** ** Byte strings *)

(** A [bytes] object; one [ascii] per byte. *)
Definition bytes := string.

(** [b'\n'] *)
Definition nl : bytes := String (ascii_of_nat 10) EmptyString.

(** [c * n] for a one-byte [c]. *)
Definition bytes_repeat (c : ascii) (n : nat) : bytes :=
  string_of_list_ascii (repeat c n).

(** ** JSON values

    The values that travel through the session: what [fromJSON] returns and
    what [asJSON] accepts when no custom encoder or decoder class is set.
    Numbers are the integers; text is kept byte per byte. *)

Inductive json :=
  | JNull
  | JBool (b : bool)
  | JInt (z : Z)
  | JStr (s : string)
  | JArr (items : list json)
  | JObj (members : list (string * json)).

(** Python truth value of a decoded JSON value ([if decoded:]). *)
Definition truthy (j : json) : bool :=
  match j with
  | JNull => false
  | JBool b => b
  | JInt z => negb (Z.eqb z 0)
  | JStr s => negb (Nat.eqb (String.length s) 0)
  | JArr items => negb (Nat.eqb (length items) 0)
  | JObj members => negb (Nat.eqb (length members) 0)
  end.

(** Python [len(x)]: defined on strings, lists and dicts; [None] stands for
    the [TypeError] raised on the other values. *)
Definition py_len (j : json) : option nat :=
  match j with
  | JStr s => Some (String.length s)
  | JArr items => Some (length items)
  | JObj members => Some (length members)
  | JNull | JBool _ | JInt _ => None
  end.

(** [sum(map(len, data))]: the first element without a length raises. *)
Fixpoint sum_len (data : list json) : option nat :=
  match data with
  | [] => Some 0
  | x :: rest =>
      match py_len x with
      | None => None
      | Some n =>
          match sum_len rest with
          | None => None
          | Some m => Some (n + m)
          end
      end
  end.

(** *** Encoding *)

Definition hex_digit (n : nat) : ascii :=
  match n with
  | 0 => "0" | 1 => "1" | 2 => "2" | 3 => "3" | 4 => "4" | 5 => "5"
  | 6 => "6" | 7 => "7" | 8 => "8" | 9 => "9" | 10 => "a" | 11 => "b"
  | 12 => "c" | 13 => "d" | 14 => "e" | _ => "f"
  end%char.

(** The double quote, written by its code. *)
Definition dquote : string := String (ascii_of_nat 34) EmptyString.

(** One character of a JSON string literal. *)
Definition escape_char (c : ascii) : string :=
  let n := nat_of_ascii c in
  if Nat.eqb n 34 then "\" ++ dquote
  else if Nat.eqb n 92 then "\\"
  else if Nat.eqb n 10 then "\n"
  else if Nat.eqb n 13 then "\r"
  else if Nat.eqb n 9 then "\t"
  else if Nat.ltb n 32 then
    "\u00" ++ String (hex_digit (n / 16)) (String (hex_digit (n mod 16)) EmptyString)
  else String c EmptyString.

Fixpoint escape (s : string) : string :=
  match s with
  | EmptyString => EmptyString
  | String c rest => escape_char c ++ escape rest
  end.

Definition quote (s : string) : string := dquote ++ escape s ++ dquote.

Definition Z_to_string (z : Z) : string := NilZero.string_of_int (Z.to_int z).

(** Modelled from the spec: [txdarn.compat.asJSON], which is not among the
    sources, called as [asJSON(data, separators=(',', ':'), cls=None)]: the
    JSON text of [data] with no whitespace between tokens, a single comma
    between items and a single colon between a key and its value. *)
Fixpoint asJSON (j : json) : bytes :=
  match j with
  | JNull => "null"
  | JBool true => "true"
  | JBool false => "false"
  | JInt z => Z_to_string z
  | JStr s => quote s
  | JArr items => "[" ++ String.concat "," (List.map asJSON items) ++ "]"
  | JObj members =>
      "{" ++ String.concat ","
               (List.map (fun kv => quote (fst kv) ++ ":" ++ asJSON (snd kv))
                         members)
          ++ "}"
  end.

(** [sockJSJSON(data, cls=None)]: no spaces. *)
Definition sockJSJSON (data : json) : bytes := asJSON data.

(** ** Exceptions and failures

    The Python exceptions the code raises or meets.  A twisted [Failure]
    wraps one of them, so a failure is modelled by the exception it wraps. *)

Inductive exn :=
  | AssertionError
  | AttributeError
  | TypeError
  | KeyError
  | RuntimeError
  | NoTransition            (* automat: the state has no edge for the input *)
  | AlreadyCalledError      (* twisted: a Deferred fired twice *)
  | InvalidData (reason : bytes)
  | ConnectionDone
  | ConnectionLost
  | CancelledError
  | SessionTimeout
  | OtherError (name : string).

(** [protocol.connectionDone] *)
Definition connectionDone : exn := ConnectionDone.

(** The outcome of a call: the value returned or the exception raised. *)
Inductive res (A : Type) :=
  | Ok (a : A)
  | Raise (e : exn).
Arguments Ok {A} a.
Arguments Raise {A} e.

(** ** Constants *)

Module INVALID_DATA.
Definition NO_PAYLOAD : bytes := "Payload expected." ++ nl.
Definition BAD_JSON : bytes := "Broken JSON encoding." ++ nl.
End INVALID_DATA.

Inductive DISCONNECT := GO_AWAY | STILL_OPEN.

(** [reason.value] of a [DISCONNECT] constant. *)
Definition value (reason : DISCONNECT) : json :=
  match reason with
  | GO_AWAY => JArr [JInt 3000; JStr "Go away!"]
  | STILL_OPEN => JArr [JInt 2010; JStr "Another connection still open"]
  end.

(** ** The objects of a session *)

(** A request object is known by its identity. *)
Definition reqid := nat.

(** What a request has been asked to do: the chunks written to it, in
    order, and how many times [finish()] was called. *)
Record Request := { written : list bytes; finished : nat }.

Definition fresh_request : Request := {| written := []; finished := 0 |}.

(** [HeartbeatClock]: [stopped], and whether a delayed call is pending. *)
Record HeartbeatClock := { stopped : bool; pendingHeartbeat : bool }.

(** [TimeoutClock]: [expired], and whether [timeoutCall] is a pending
    delayed call. *)
Record TimeoutClock := { expired : bool; timeoutCall : bool }.

(** The value a fired [TimeoutClock] hands to its deferred. *)
Definition EXPIRED : string := "EXPIRED".

Module SockJSProtocolMachine.
Inductive State := notYetConnected | connected | disconnected.
Inductive Input :=
  | connect
  | write (data : list json)
  | receive (data : json)
  | heartbeat
  | disconnect (reason : DISCONNECT)
  | close.
Inductive Output :=
  | _connectionEstablished
  | _writeToTransport
  | _received
  | _writeHeartbeatToTransport
  | _writeCloseFrame
  | _stopHeartbeatWithReason
  | _stopHeartbeat.

(** The [upon] declarations: the state entered and the outputs run, or
    [None] where automat raises [NoTransition]. *)
Definition upon (s : State) (i : Input) : option (State * list Output) :=
  match s, i with
  | notYetConnected, connect => Some (connected, [_connectionEstablished])
  | notYetConnected, disconnect _ => Some (disconnected, [])
  | connected, write _ => Some (connected, [_writeToTransport])
  | connected, receive _ => Some (connected, [_received])
  | connected, heartbeat => Some (connected, [_writeHeartbeatToTransport])
  | connected, disconnect _ =>
      Some (disconnected, [_writeCloseFrame; _stopHeartbeatWithReason])
  | connected, close => Some (disconnected, [_stopHeartbeat])
  | disconnected, close => Some (disconnected, [])
  | _, _ => None
  end.
End SockJSProtocolMachine.

Module RequestSessionMachine.
Inductive State :=
  | neverConnected
  | connectedHaveTransport
  | connectedNoTransportEmptyBuffer
  | connectedNoTransportPending
  | loseConnectionEmptyBuffer
  | loseConnectionPending
  | disconnected.

(** An input with the arguments it was called with. *)
Inductive Input :=
  | attach (request : reqid)
  | detach
  | write (data : list json)
  | receive (data : bytes)
  | writeClose (reason : DISCONNECT)
  | heartbeat
  | loseConnection
  | connectionLost (reason : exn).

Inductive Output :=
  | _openRequest
  | _establishConnection
  | _completeConnection
  | _beginRequest
  | _completeDataReceived
  | _bufferWrite
  | _flushBuffer
  | _dumpBuffer
  | _directWrite
  | _directHeartbeat
  | _closeRequest
  | _closeDuplicateRequest
  | _loseConnection
  | _storeCloseReason
  | _writeCloseReason
  | _dropRequest
  | _closeProtocol
  | _timedOut.

(** The [upon] declarations of the class, in the order of the source. *)
Definition upon (s : State) (i : Input) : option (State * list Output) :=
  match s, i with
  | neverConnected, attach _ =>
      Some (connectedHaveTransport,
            [_openRequest; _establishConnection; _beginRequest;
             _completeConnection])

  | connectedHaveTransport, write _ =>
      Some (connectedHaveTransport, [_directWrite])
  | connectedHaveTransport, receive _ =>
      Some (connectedHaveTransport, [_completeDataReceived])
  | connectedHaveTransport, heartbeat =>
      Some (connectedHaveTransport, [_directHeartbeat])
  | connectedHaveTransport, detach =>
      Some (connectedNoTransportEmptyBuffer, [_closeRequest])
  | connectedHaveTransport, attach _ =>
      Some (connectedHaveTransport, [_closeDuplicateRequest])
  | connectedHaveTransport, writeClose _ =>
      Some (connectedHaveTransport, [_storeCloseReason])
  | connectedHaveTransport, loseConnection =>
      Some (loseConnectionEmptyBuffer, [_closeRequest; _loseConnection])
  | connectedHaveTransport, connectionLost _ =>
      Some (disconnected, [_dropRequest; _closeProtocol])

  | connectedNoTransportEmptyBuffer, write _ =>
      Some (connectedNoTransportPending, [_bufferWrite])
  | connectedNoTransportEmptyBuffer, receive _ =>
      Some (connectedNoTransportEmptyBuffer, [_completeDataReceived])
  | connectedNoTransportEmptyBuffer, heartbeat =>
      Some (connectedNoTransportEmptyBuffer, [])
  | connectedNoTransportEmptyBuffer, attach _ =>
      Some (connectedHaveTransport, [_openRequest; _beginRequest])
  | connectedNoTransportEmptyBuffer, detach =>
      Some (connectedNoTransportEmptyBuffer, [])
  | connectedNoTransportEmptyBuffer, writeClose _ =>
      Some (connectedNoTransportEmptyBuffer, [_storeCloseReason])
  | connectedNoTransportEmptyBuffer, loseConnection =>
      Some (loseConnectionEmptyBuffer, [_loseConnection])
  | connectedNoTransportEmptyBuffer, connectionLost _ =>
      Some (disconnected, [_closeProtocol])

  | loseConnectionEmptyBuffer, attach _ =>
      Some (loseConnectionEmptyBuffer, [_writeCloseReason])
  | loseConnectionEmptyBuffer, receive _ =>
      Some (loseConnectionEmptyBuffer, [])
  | loseConnectionEmptyBuffer, connectionLost _ =>
      Some (disconnected, [_closeProtocol])

  | connectedNoTransportPending, write _ =>
      Some (connectedNoTransportPending, [_bufferWrite])
  | connectedNoTransportPending, receive _ =>
      Some (connectedNoTransportPending, [_completeDataReceived])
  | connectedNoTransportPending, heartbeat =>
      Some (connectedNoTransportPending, [])
  | connectedNoTransportPending, attach _ =>
      Some (connectedHaveTransport, [_openRequest; _flushBuffer])
  | connectedNoTransportPending, detach =>
      Some (connectedNoTransportPending, [])
  | connectedNoTransportPending, writeClose _ =>
      Some (connectedNoTransportPending, [_storeCloseReason])
  | connectedNoTransportPending, loseConnection =>
      Some (loseConnectionPending, [_dumpBuffer; _loseConnection])
  | connectedNoTransportPending, connectionLost _ =>
      Some (disconnected, [_dropRequest; _timedOut])

  | loseConnectionPending, connectionLost _ =>
      Some (disconnected, [_timedOut])
  | loseConnectionPending, attach _ =>
      Some (loseConnectionPending, [_writeCloseReason])
  | loseConnectionPending, receive _ =>
      Some (loseConnectionPending, [])
  | loseConnectionPending, detach =>
      Some (loseConnectionPending, [])

  | _, _ => None
  end.
End RequestSessionMachine.

(** The [SockJSProtocolMachine] object of a [SockJSProtocol]. *)
Record SockJSMachine := {
  sj_state : SockJSProtocolMachine.State;
  sj_transport : bool;                  (* [self.transport is not None] *)
  heartbeater : option HeartbeatClock   (* [self.heartbeater] *)
}.

(** The protocol a session wraps: the recording protocol of the test
    suite, which only counts and records what it is told, or a
    [SockJSProtocol] around such a protocol. *)
Inductive Wrapped :=
  | RecordingProtocol (connectionMadeCalls : nat)
  | SockJSProtocol (sockJSMachine : option SockJSMachine)
                   (connectionMadeCalls : nat).

(** The three classes of request sessions. *)
Inductive SessionKind :=
  | RequestSessionProtocolWrapper
  | XHRSession
  | XHRStreamingSession.

(** A session: a [RequestSessionProtocolWrapper] (or subclass) object with
    the [RequestSessionMachine] and [TimeoutClock] it owns, the protocol it
    wraps, and the requests it has met. *)
Record Session := {
  kind : SessionKind;  (* the class of the session object *)
  maximumBytes : Z;  (* [factory.maximumBytes], read by [XHRStreamingSession] *)
  state : RequestSessionMachine.State;  (* the state of the [RequestSessionMachine] *)
  buffer : list json;  (* [RequestSessionMachine.buffer] *)
  _closeReason : option DISCONNECT;  (* [RequestSessionMachine._closeReason] *)
  requestSession : bool;  (* [RequestSessionMachine.requestSession is not None] *)
  request : option reqid;  (* the attached request, if any *)
  finishedNotifier : option reqid;  (* the [notifyFinish()] deferred of that request *)
  disconnecting : bool;  (* [ProtocolWrapper.disconnecting] *)
  sessionMachine : bool;  (* [self.sessionMachine is not None] *)
  transport : option bool;  (* [self.transport]: whether [loseConnection] was called on it *)
  registered : bool;  (* [self in self.factory.protocols] *)
  bytesWritten : Z;  (* [XHRStreamingSession.bytesWritten] *)
  timeoutClock : TimeoutClock;  (* [self.timeoutClock] *)
  terminationDeferred : option (res unit);  (* [None] until fired, then its current result *)
  wrappedProtocol : option Wrapped;  (* [self.wrappedProtocol] *)
  receivedData : list json;  (* the [receivedData] list of the recording factory *)
  connectionsLost : list exn;  (* its [connectionsLost] list *)
  requests : gmap reqid Request  (* the request objects, by identity *)
}.

Definition set_state (v : RequestSessionMachine.State) (s : Session) : Session :=
  {| kind := kind s; maximumBytes := maximumBytes s; state := v;
     buffer := buffer s; _closeReason := _closeReason s;
     requestSession := requestSession s; request := request s;
     finishedNotifier := finishedNotifier s;
     disconnecting := disconnecting s; sessionMachine := sessionMachine s;
     transport := transport s; registered := registered s;
     bytesWritten := bytesWritten s; timeoutClock := timeoutClock s;
     terminationDeferred := terminationDeferred s;
     wrappedProtocol := wrappedProtocol s; receivedData := receivedData s;
     connectionsLost := connectionsLost s; requests := requests s |}.

Definition set_buffer (v : list json) (s : Session) : Session :=
  {| kind := kind s; maximumBytes := maximumBytes s; state := state s;
     buffer := v; _closeReason := _closeReason s;
     requestSession := requestSession s; request := request s;
     finishedNotifier := finishedNotifier s;
     disconnecting := disconnecting s; sessionMachine := sessionMachine s;
     transport := transport s; registered := registered s;
     bytesWritten := bytesWritten s; timeoutClock := timeoutClock s;
     terminationDeferred := terminationDeferred s;
     wrappedProtocol := wrappedProtocol s; receivedData := receivedData s;
     connectionsLost := connectionsLost s; requests := requests s |}.

Definition set__closeReason (v : option DISCONNECT) (s : Session) : Session :=
  {| kind := kind s; maximumBytes := maximumBytes s; state := state s;
     buffer := buffer s; _closeReason := v;
     requestSession := requestSession s; request := request s;
     finishedNotifier := finishedNotifier s;
     disconnecting := disconnecting s; sessionMachine := sessionMachine s;
     transport := transport s; registered := registered s;
     bytesWritten := bytesWritten s; timeoutClock := timeoutClock s;
     terminationDeferred := terminationDeferred s;
     wrappedProtocol := wrappedProtocol s; receivedData := receivedData s;
     connectionsLost := connectionsLost s; requests := requests s |}.

Definition set_requestSession (v : bool) (s : Session) : Session :=
  {| kind := kind s; maximumBytes := maximumBytes s; state := state s;
     buffer := buffer s; _closeReason := _closeReason s; requestSession := v;
     request := request s; finishedNotifier := finishedNotifier s;
     disconnecting := disconnecting s; sessionMachine := sessionMachine s;
     transport := transport s; registered := registered s;
     bytesWritten := bytesWritten s; timeoutClock := timeoutClock s;
     terminationDeferred := terminationDeferred s;
     wrappedProtocol := wrappedProtocol s; receivedData := receivedData s;
     connectionsLost := connectionsLost s; requests := requests s |}.

Definition set_request (v : option reqid) (s : Session) : Session :=
  {| kind := kind s; maximumBytes := maximumBytes s; state := state s;
     buffer := buffer s; _closeReason := _closeReason s;
     requestSession := requestSession s; request := v;
     finishedNotifier := finishedNotifier s;
     disconnecting := disconnecting s; sessionMachine := sessionMachine s;
     transport := transport s; registered := registered s;
     bytesWritten := bytesWritten s; timeoutClock := timeoutClock s;
     terminationDeferred := terminationDeferred s;
     wrappedProtocol := wrappedProtocol s; receivedData := receivedData s;
     connectionsLost := connectionsLost s; requests := requests s |}.

Definition set_finishedNotifier (v : option reqid) (s : Session) : Session :=
  {| kind := kind s; maximumBytes := maximumBytes s; state := state s;
     buffer := buffer s; _closeReason := _closeReason s;
     requestSession := requestSession s; request := request s;
     finishedNotifier := v; disconnecting := disconnecting s;
     sessionMachine := sessionMachine s; transport := transport s;
     registered := registered s; bytesWritten := bytesWritten s;
     timeoutClock := timeoutClock s;
     terminationDeferred := terminationDeferred s;
     wrappedProtocol := wrappedProtocol s; receivedData := receivedData s;
     connectionsLost := connectionsLost s; requests := requests s |}.

Definition set_disconnecting (v : bool) (s : Session) : Session :=
  {| kind := kind s; maximumBytes := maximumBytes s; state := state s;
     buffer := buffer s; _closeReason := _closeReason s;
     requestSession := requestSession s; request := request s;
     finishedNotifier := finishedNotifier s; disconnecting := v;
     sessionMachine := sessionMachine s; transport := transport s;
     registered := registered s; bytesWritten := bytesWritten s;
     timeoutClock := timeoutClock s;
     terminationDeferred := terminationDeferred s;
     wrappedProtocol := wrappedProtocol s; receivedData := receivedData s;
     connectionsLost := connectionsLost s; requests := requests s |}.

Definition set_sessionMachine (v : bool) (s : Session) : Session :=
  {| kind := kind s; maximumBytes := maximumBytes s; state := state s;
     buffer := buffer s; _closeReason := _closeReason s;
     requestSession := requestSession s; request := request s;
     finishedNotifier := finishedNotifier s;
     disconnecting := disconnecting s; sessionMachine := v;
     transport := transport s; registered := registered s;
     bytesWritten := bytesWritten s; timeoutClock := timeoutClock s;
     terminationDeferred := terminationDeferred s;
     wrappedProtocol := wrappedProtocol s; receivedData := receivedData s;
     connectionsLost := connectionsLost s; requests := requests s |}.

Definition set_transport (v : option bool) (s : Session) : Session :=
  {| kind := kind s; maximumBytes := maximumBytes s; state := state s;
     buffer := buffer s; _closeReason := _closeReason s;
     requestSession := requestSession s; request := request s;
     finishedNotifier := finishedNotifier s;
     disconnecting := disconnecting s; sessionMachine := sessionMachine s;
     transport := v; registered := registered s;
     bytesWritten := bytesWritten s; timeoutClock := timeoutClock s;
     terminationDeferred := terminationDeferred s;
     wrappedProtocol := wrappedProtocol s; receivedData := receivedData s;
     connectionsLost := connectionsLost s; requests := requests s |}.

Definition set_registered (v : bool) (s : Session) : Session :=
  {| kind := kind s; maximumBytes := maximumBytes s; state := state s;
     buffer := buffer s; _closeReason := _closeReason s;
     requestSession := requestSession s; request := request s;
     finishedNotifier := finishedNotifier s;
     disconnecting := disconnecting s; sessionMachine := sessionMachine s;
     transport := transport s; registered := v;
     bytesWritten := bytesWritten s; timeoutClock := timeoutClock s;
     terminationDeferred := terminationDeferred s;
     wrappedProtocol := wrappedProtocol s; receivedData := receivedData s;
     connectionsLost := connectionsLost s; requests := requests s |}.

Definition set_bytesWritten (v : Z) (s : Session) : Session :=
  {| kind := kind s; maximumBytes := maximumBytes s; state := state s;
     buffer := buffer s; _closeReason := _closeReason s;
     requestSession := requestSession s; request := request s;
     finishedNotifier := finishedNotifier s;
     disconnecting := disconnecting s; sessionMachine := sessionMachine s;
     transport := transport s; registered := registered s; bytesWritten := v;
     timeoutClock := timeoutClock s;
     terminationDeferred := terminationDeferred s;
     wrappedProtocol := wrappedProtocol s; receivedData := receivedData s;
     connectionsLost := connectionsLost s; requests := requests s |}.

Definition set_timeoutClock (v : TimeoutClock) (s : Session) : Session :=
  {| kind := kind s; maximumBytes := maximumBytes s; state := state s;
     buffer := buffer s; _closeReason := _closeReason s;
     requestSession := requestSession s; request := request s;
     finishedNotifier := finishedNotifier s;
     disconnecting := disconnecting s; sessionMachine := sessionMachine s;
     transport := transport s; registered := registered s;
     bytesWritten := bytesWritten s; timeoutClock := v;
     terminationDeferred := terminationDeferred s;
     wrappedProtocol := wrappedProtocol s; receivedData := receivedData s;
     connectionsLost := connectionsLost s; requests := requests s |}.

Definition set_terminationDeferred (v : option (res unit)) (s : Session) : Session :=
  {| kind := kind s; maximumBytes := maximumBytes s; state := state s;
     buffer := buffer s; _closeReason := _closeReason s;
     requestSession := requestSession s; request := request s;
     finishedNotifier := finishedNotifier s;
     disconnecting := disconnecting s; sessionMachine := sessionMachine s;
     transport := transport s; registered := registered s;
     bytesWritten := bytesWritten s; timeoutClock := timeoutClock s;
     terminationDeferred := v; wrappedProtocol := wrappedProtocol s;
     receivedData := receivedData s; connectionsLost := connectionsLost s;
     requests := requests s |}.

Definition set_wrappedProtocol (v : option Wrapped) (s : Session) : Session :=
  {| kind := kind s; maximumBytes := maximumBytes s; state := state s;
     buffer := buffer s; _closeReason := _closeReason s;
     requestSession := requestSession s; request := request s;
     finishedNotifier := finishedNotifier s;
     disconnecting := disconnecting s; sessionMachine := sessionMachine s;
     transport := transport s; registered := registered s;
     bytesWritten := bytesWritten s; timeoutClock := timeoutClock s;
     terminationDeferred := terminationDeferred s; wrappedProtocol := v;
     receivedData := receivedData s; connectionsLost := connectionsLost s;
     requests := requests s |}.

Definition set_receivedData (v : list json) (s : Session) : Session :=
  {| kind := kind s; maximumBytes := maximumBytes s; state := state s;
     buffer := buffer s; _closeReason := _closeReason s;
     requestSession := requestSession s; request := request s;
     finishedNotifier := finishedNotifier s;
     disconnecting := disconnecting s; sessionMachine := sessionMachine s;
     transport := transport s; registered := registered s;
     bytesWritten := bytesWritten s; timeoutClock := timeoutClock s;
     terminationDeferred := terminationDeferred s;
     wrappedProtocol := wrappedProtocol s; receivedData := v;
     connectionsLost := connectionsLost s; requests := requests s |}.

Definition set_connectionsLost (v : list exn) (s : Session) : Session :=
  {| kind := kind s; maximumBytes := maximumBytes s; state := state s;
     buffer := buffer s; _closeReason := _closeReason s;
     requestSession := requestSession s; request := request s;
     finishedNotifier := finishedNotifier s;
     disconnecting := disconnecting s; sessionMachine := sessionMachine s;
     transport := transport s; registered := registered s;
     bytesWritten := bytesWritten s; timeoutClock := timeoutClock s;
     terminationDeferred := terminationDeferred s;
     wrappedProtocol := wrappedProtocol s; receivedData := receivedData s;
     connectionsLost := v; requests := requests s |}.

Definition set_requests (v : gmap reqid Request) (s : Session) : Session :=
  {| kind := kind s; maximumBytes := maximumBytes s; state := state s;
     buffer := buffer s; _closeReason := _closeReason s;
     requestSession := requestSession s; request := request s;
     finishedNotifier := finishedNotifier s;
     disconnecting := disconnecting s; sessionMachine := sessionMachine s;
     transport := transport s; registered := registered s;
     bytesWritten := bytesWritten s; timeoutClock := timeoutClock s;
     terminationDeferred := terminationDeferred s;
     wrappedProtocol := wrappedProtocol s; receivedData := receivedData s;
     connectionsLost := connectionsLost s; requests := v |}.

Module RSM := RequestSessionMachine.
Module SJM := SockJSProtocolMachine.

(** ** Methods as state transformers

    A method takes the session as it is and returns the session as it
    leaves it, with its result. *)

Definition M (A : Type) : Type := Session -> Session * res A.

Definition ret {A} (a : A) : M A := fun s => (s, Ok a).

Definition raise {A} (e : exn) : M A := fun s => (s, Raise e).

Definition bind {A B} (m : M A) (k : A -> M B) : M B :=
  fun s =>
    match m s with
    | (s', Ok a) => k a s'
    | (s', Raise e) => (s', Raise e)
    end.

Notation "x <- m ;; k" := (bind m (fun x => k))
  (at level 100, m at next level, right associativity).
Notation "m ;; k" := (bind m (fun _ => k))
  (at level 100, right associativity).

(** Read an attribute. *)
Definition get {A} (f : Session -> A) : M A := fun s => (s, Ok (f s)).

(** Assign to attributes. *)
Definition modify (f : Session -> Session) : M unit := fun s => (f s, Ok tt).

(** [assert b] *)
Definition assert (b : bool) : M unit :=
  if b then ret tt else raise AssertionError.

(** Run the statements of [m] one after the other, up to the first that
    raises. *)
Fixpoint sequence (ms : list (M unit)) : M unit :=
  match ms with
  | [] => ret tt
  | m :: rest => m ;; sequence rest
  end.

(** ** Requests *)

Definition lookup_request (r : reqid) (s : Session) : Request :=
  default fresh_request (requests s !! r).

(** [request.write(data)] *)
Definition request_write (r : reqid) (data : bytes) : M unit :=
  modify (fun s =>
    let q := lookup_request r s in
    set_requests
      (<[r := {| written := written q ++ [data]; finished := finished q |}]>
         (requests s)) s).

(** [request.finish()] *)
Definition request_finish (r : reqid) : M unit :=
  modify (fun s =>
    let q := lookup_request r s in
    set_requests
      (<[r := {| written := written q; finished := S (finished q) |}]>
         (requests s)) s).

(** ** HeartbeatClock *)

Definition HeartbeatClock_schedule (h : HeartbeatClock) : res HeartbeatClock :=
  if stopped h then Raise RuntimeError
  else Ok {| stopped := stopped h; pendingHeartbeat := true |}.

Definition HeartbeatClock_stop (h : HeartbeatClock) : HeartbeatClock :=
  if negb (stopped h) then {| stopped := true; pendingHeartbeat := false |}
  else h.

(** ** TimeoutClock, as owned by the session *)

Definition TimeoutClock_reset : M unit :=
  c <- get timeoutClock ;;
  if expired c then raise RuntimeError
  else if timeoutCall c
       then modify (set_timeoutClock
                      {| expired := expired c; timeoutCall := false |})
       else ret tt.

Definition TimeoutClock_start : M unit :=
  c <- get timeoutClock ;;
  if expired c then raise RuntimeError
  else if negb (expired c) && negb (timeoutCall c)
       then modify (set_timeoutClock
                      {| expired := expired c; timeoutCall := true |})
       else ret tt.

Definition TimeoutClock_stop : M unit :=
  c <- get timeoutClock ;;
  if negb (expired c) && timeoutCall c
  then modify (set_timeoutClock
                 {| expired := expired c; timeoutCall := false |})
  else ret tt.

(** ** RequestSessionProtocolWrapper: what needs no state machine *)

(** [self.request.write(data + b'\n')] *)
Definition write (data : bytes) : M unit :=
  r <- get request ;;
  match r with
  | None => raise AttributeError
  | Some r => request_write r (data ++ nl)
  end.

(** [SockJSWireProtocolWrapper.closeFrame] *)
Definition closeFrame (reason : DISCONNECT) : bytes :=
  "c" ++ sockJSJSON (value reason).

Definition closeOtherRequest (request : reqid) (reason : DISCONNECT) : M unit :=
  request_write request (closeFrame reason ++ nl) ;;
  request_finish request.

Definition beginRequest : M unit :=
  r <- get request ;;
  match r with
  | None => raise AttributeError
  | Some r =>
      modify (set_finishedNotifier (Some r)) ;;
      TimeoutClock_reset
  end.

(** [protocol.Protocol.makeConnection(self, request.transport)] and the
    registration with the factory. *)
Definition establishConnection (request : reqid) : M unit :=
  modify (set_transport (Some false)) ;;
  modify (set_registered true).

Definition finishCurrentRequest : M unit :=
  n <- get finishedNotifier ;;
  (match n with
   | Some _ => modify (set_finishedNotifier None)   (* cancel() *)
   | None => ret tt
   end) ;;
  r <- get request ;;
  match r with
  | None => raise AttributeError
  | Some r =>
      request_finish r ;;
      modify (set_request None) ;;
      modify (set_finishedNotifier None) ;;
      TimeoutClock_start
  end.

(** [ProtocolWrapper.loseConnection] *)
Definition completeLoseConnection : M unit :=
  modify (set_disconnecting true) ;;
  t <- get transport ;;
  match t with
  | None => raise AttributeError
  | Some _ => modify (set_transport (Some true))
  end.

Definition SockJSWireProtocolWrapper_writeOpen : M unit := write "o".

Definition SockJSWireProtocolWrapper_writeHeartbeat : M unit := write "h".

Definition SockJSWireProtocolWrapper_writeData (data : list json) : M unit :=
  write ("a" ++ sockJSJSON (JArr data)).

Definition completeHeartbeat : M unit := SockJSWireProtocolWrapper_writeHeartbeat.

Definition RequestSessionProtocolWrapper_completeWrite (data : list json)
  : M unit :=
  SockJSWireProtocolWrapper_writeData data.

(** ** The recording protocol *)

(** [TestProtocol.connectionMade]: counts, and must be called once only.
    The count lives in the protocol object; [store] puts it back. *)
Definition Recording_connectionMade (calls : nat) (store : nat -> Session -> Session)
  : M unit :=
  modify (store (S calls)) ;;
  if Nat.ltb 1 (S calls) then raise AssertionError else ret tt.

Definition Recording_dataReceived (data : json) : M unit :=
  modify (fun s => set_receivedData (receivedData s ++ [data]) s).

Definition Recording_connectionLost (reason : exn) : M unit :=
  modify (fun s => set_connectionsLost (connectionsLost s ++ [reason]) s).

(** ** The session and its state machine

    The wrapper calls its state machine ([self.sessionMachine.detach()]) and
    the state machine calls the wrapper back
    ([self.requestSession.finishCurrentRequest()]), also from inside an
    output that is still running.  Inside this section [sm] is the state
    machine as the wrapper sees it; the section defines the wrapper and,
    from it, one more layer of the machine.  [sessionMachine_input] below
    closes the loop. *)

Section Session.

(** [self.sessionMachine.<input>(...)] *)
Variable sm : RSM.Input -> M unit.

(** [txdarn.compat.fromJSON(data, cls=self.jsonDecoder)], which is not
    among the sources: the decoded value, or [None] where it raises
    [ValueError]. *)
Variable fromJSON : bytes -> option json.

Definition call_sessionMachine (i : RSM.Input) : M unit :=
  live <- get sessionMachine ;;
  if live then sm i else raise AttributeError.

(** *** RequestSessionProtocolWrapper and its subclasses *)

Definition makeConnectionFromRequest (request : reqid) : M unit :=
  call_sessionMachine (RSM.attach request).

Definition detachFromRequest : M unit :=
  call_sessionMachine RSM.detach.

Definition dataReceived (data : bytes) : M unit :=
  call_sessionMachine (RSM.receive data).

Definition RequestSessionProtocolWrapper_writeData (data : list json)
  : M unit :=
  call_sessionMachine (RSM.write data).

Definition writeHeartbeat : M unit :=
  call_sessionMachine RSM.heartbeat.

Definition writeClose (reason : DISCONNECT) : M unit :=
  call_sessionMachine (RSM.writeClose reason).

Definition loseConnection : M unit :=
  d <- get disconnecting ;;
  if negb d then
    modify (set_disconnecting true) ;;
    call_sessionMachine RSM.loseConnection ;;
    TimeoutClock_start
  else ret tt.

(** [self.terminationDeferred.errback(reason)].  The deferred's own
    callback, [_timedOut], was added with [addCallback] and is skipped
    by a failure. *)
Definition terminationDeferred_errback (reason : exn) : M unit :=
  t <- get terminationDeferred ;;
  match t with
  | Some _ => raise AlreadyCalledError
  | None => modify (set_terminationDeferred (Some (Raise reason)))
  end.

Definition connectionLost (reason : exn) : M unit :=
  d <- get disconnecting ;;
  (if negb d then
     terminationDeferred_errback reason ;;
     TimeoutClock_stop
   else ret tt) ;;
  call_sessionMachine (RSM.connectionLost reason) ;;
  modify (set_sessionMachine false).

Definition _timedOut : M unit :=
  modify (set_disconnecting true) ;;
  connectionLost connectionDone.

(** [self.terminationDeferred.callback(EXPIRED)]: the deferred runs
    [_timedOut] and keeps what it returns, or the failure it raises, as
    its result. *)
Definition terminationDeferred_callback : M unit :=
  t <- get terminationDeferred ;;
  match t with
  | Some _ => raise AlreadyCalledError
  | None =>
      modify (set_terminationDeferred (Some (Ok tt))) ;;
      fun s =>
        match _timedOut s with
        | (s', Ok _) => (s', Ok tt)
        | (s', Raise e) => (set_terminationDeferred (Some (Raise e)) s', Ok tt)
        end
  end.

(** [TimeoutClock._expire], run by the reactor when [timeoutCall] is
    due. *)
Definition TimeoutClock__expire : M unit :=
  modify (set_timeoutClock {| expired := true; timeoutCall := false |}) ;;
  terminationDeferred_callback.

Definition XHRSession_writeOpen : M unit :=
  SockJSWireProtocolWrapper_writeOpen ;;
  detachFromRequest.

Definition XHRSession_writeData (data : list json) : M unit :=
  RequestSessionProtocolWrapper_writeData data ;;
  detachFromRequest.

(** [XHRStreamingSession.prelude] *)
Definition prelude : bytes := bytes_repeat "h" 2048.

Definition XHRStreamingSession_writeOpen : M unit :=
  write prelude ;;
  SockJSWireProtocolWrapper_writeOpen.

Definition XHRStreamingSession_completeWrite (data : list json) : M unit :=
  RequestSessionProtocolWrapper_completeWrite data ;;
  match sum_len data with
  | None => raise TypeError
  | Some n =>
      modify (fun s => set_bytesWritten (bytesWritten s + Z.of_nat n) s) ;;
      written <- get bytesWritten ;;
      maximum <- get maximumBytes ;;
      if Z.leb maximum written then
        modify (set_bytesWritten 0) ;;
        detachFromRequest
      else ret tt
  end.

(** [self.writeOpen()], [self.writeData(data)] and
    [self.completeWrite(data)], by the class of [self]. *)
Definition writeOpen : M unit :=
  k <- get kind ;;
  match k with
  | RequestSessionProtocolWrapper => SockJSWireProtocolWrapper_writeOpen
  | XHRSession => XHRSession_writeOpen
  | XHRStreamingSession => XHRStreamingSession_writeOpen
  end.

Definition writeData (data : list json) : M unit :=
  k <- get kind ;;
  match k with
  | RequestSessionProtocolWrapper | XHRStreamingSession =>
      RequestSessionProtocolWrapper_writeData data
  | XHRSession => XHRSession_writeData data
  end.

Definition completeWrite (data : list json) : M unit :=
  k <- get kind ;;
  match k with
  | RequestSessionProtocolWrapper | XHRSession =>
      RequestSessionProtocolWrapper_completeWrite data
  | XHRStreamingSession => XHRStreamingSession_completeWrite data
  end.

(** *** SockJSProtocol, when it is the wrapped protocol *)

(** [self.sockJSMachine] of the wrapped [SockJSProtocol]. *)
Definition get_sockJSMachine : M SockJSMachine :=
  p <- get wrappedProtocol ;;
  match p with
  | Some (SockJSProtocol (Some m) _) => ret m
  | _ => raise AttributeError
  end.

Definition put_sockJSMachine (m : option SockJSMachine) (s : Session)
  : Session :=
  match wrappedProtocol s with
  | Some (SockJSProtocol _ calls) =>
      set_wrappedProtocol (Some (SockJSProtocol m calls)) s
  | _ => s
  end.

Definition update_sockJSMachine (f : SockJSMachine -> SockJSMachine)
  : M unit :=
  m <- get_sockJSMachine ;;
  modify (put_sockJSMachine (Some (f m))).

Definition set_sj_state (st : SJM.State) (m : SockJSMachine) :=
  {| sj_state := st; sj_transport := sj_transport m;
     heartbeater := heartbeater m |}.

Definition set_sj_transport (t : bool) (m : SockJSMachine) :=
  {| sj_state := sj_state m; sj_transport := t;
     heartbeater := heartbeater m |}.

Definition set_heartbeater (h : option HeartbeatClock) (m : SockJSMachine) :=
  {| sj_state := sj_state m; sj_transport := sj_transport m;
     heartbeater := h |}.

(** [self.transport.<method>()] inside the machine. *)
Definition on_sj_transport (call : M unit) : M unit :=
  m <- get_sockJSMachine ;;
  if sj_transport m then call else raise AttributeError.

(** [self.heartbeater.schedule()] *)
Definition heartbeater_schedule : M unit :=
  m <- get_sockJSMachine ;;
  match heartbeater m with
  | None => raise AttributeError
  | Some h =>
      match HeartbeatClock_schedule h with
      | Raise e => raise e
      | Ok h' => update_sockJSMachine (set_heartbeater (Some h'))
      end
  end.

(** [self.heartbeater.stop(); self.heartbeater = None] *)
Definition heartbeater_stop_and_drop : M unit :=
  m <- get_sockJSMachine ;;
  match heartbeater m with
  | None => raise AttributeError
  | Some _ => update_sockJSMachine (set_heartbeater None)
  end.

Definition SJM_output (o : SJM.Output) (i : SJM.Input) : M unit :=
  match o, i with
  | SJM._connectionEstablished, SJM.connect =>
      update_sockJSMachine (set_sj_transport true) ;;
      on_sj_transport writeOpen ;;
      heartbeater_schedule
  | SJM._writeToTransport, SJM.write data =>
      on_sj_transport (writeData data) ;;
      heartbeater_schedule
  | SJM._received, SJM.receive data => ret tt
  | SJM._writeHeartbeatToTransport, SJM.heartbeat =>
      on_sj_transport writeHeartbeat
  | SJM._writeCloseFrame, SJM.disconnect reason =>
      on_sj_transport (writeClose reason) ;;
      on_sj_transport loseConnection ;;
      update_sockJSMachine (set_sj_transport false)
  | SJM._stopHeartbeatWithReason, SJM.disconnect reason =>
      heartbeater_stop_and_drop
  | SJM._stopHeartbeat, SJM.close =>
      update_sockJSMachine (set_sj_transport false) ;;
      heartbeater_stop_and_drop
  | _, _ => raise TypeError
  end.

(** An input of the [SockJSProtocolMachine]: automat enters the new
    state, then runs the outputs in order. *)
Definition SJM_input (i : SJM.Input) : M unit :=
  m <- get_sockJSMachine ;;
  match SJM.upon (sj_state m) i with
  | None => raise NoTransition
  | Some (st, outputs) =>
      update_sockJSMachine (set_sj_state st) ;;
      sequence (List.map (fun o => SJM_output o i) outputs)
  end.

Definition put_connectionMadeCalls (calls : nat) (s : Session) : Session :=
  match wrappedProtocol s with
  | Some (RecordingProtocol _) =>
      set_wrappedProtocol (Some (RecordingProtocol calls)) s
  | Some (SockJSProtocol m _) =>
      set_wrappedProtocol (Some (SockJSProtocol m calls)) s
  | None => s
  end.

(** [self.wrappedProtocol] of the [SockJSProtocol]: the recording
    protocol. *)
Definition SockJSProtocol_wrapped_makeConnection : M unit :=
  p <- get wrappedProtocol ;;
  match p with
  | Some (SockJSProtocol _ calls) =>
      Recording_connectionMade calls put_connectionMadeCalls
  | _ => raise AttributeError
  end.

Definition SockJSProtocol_connectionMade : M unit := SJM_input SJM.connect.

(** [ProtocolWrapper.makeConnection], inherited: [connectionMade] first,
    then the wrapped protocol's [makeConnection]. *)
Definition SockJSProtocol_makeConnection : M unit :=
  SockJSProtocol_connectionMade ;;
  SockJSProtocol_wrapped_makeConnection.

Definition SockJSProtocol_dataReceived (data : json) : M unit :=
  SJM_input (SJM.receive data) ;;
  Recording_dataReceived data.

Definition SockJSProtocol_write (data : list json) : M unit :=
  SJM_input (SJM.write data).

Definition SockJSProtocol_loseConnection : M unit :=
  SJM_input (SJM.disconnect GO_AWAY).

Definition SockJSProtocol_connectionLost (reason : exn) : M unit :=
  SJM_input SJM.close ;;
  modify (put_sockJSMachine None) ;;
  Recording_connectionLost reason.

(** [HeartbeatClock._sendHeartbeat], run by the reactor when the pending
    heartbeat is due. *)
Definition HeartbeatClock__sendHeartbeat : M unit :=
  SJM_input SJM.heartbeat ;;
  heartbeater_schedule.

(** *** Calls into [self.wrappedProtocol] *)

Definition wrappedProtocol_makeConnection : M unit :=
  p <- get wrappedProtocol ;;
  match p with
  | None => raise AttributeError
  | Some (RecordingProtocol calls) =>
      Recording_connectionMade calls put_connectionMadeCalls
  | Some (SockJSProtocol _ _) => SockJSProtocol_makeConnection
  end.

Definition wrappedProtocol_dataReceived (data : json) : M unit :=
  p <- get wrappedProtocol ;;
  match p with
  | None => raise AttributeError
  | Some (RecordingProtocol _) => Recording_dataReceived data
  | Some (SockJSProtocol _ _) => SockJSProtocol_dataReceived data
  end.

Definition wrappedProtocol_connectionLost (reason : exn) : M unit :=
  p <- get wrappedProtocol ;;
  match p with
  | None => raise AttributeError
  | Some (RecordingProtocol _) => Recording_connectionLost reason
  | Some (SockJSProtocol _ _) => SockJSProtocol_connectionLost reason
  end.

(** *** SockJSWireProtocolWrapper: inbound data *)

Definition SockJSWireProtocolWrapper_jsonReceived (decoded : json) : M unit :=
  wrappedProtocol_dataReceived decoded.

(** [jsonReceived] is the method of the class of [self]. *)
Definition SockJSWireProtocolWrapper_dataReceived
    (jsonReceived : json -> M unit) (data : bytes) : M unit :=
  if Nat.eqb (String.length data) 0 then
    raise (InvalidData INVALID_DATA.NO_PAYLOAD)
  else
    match fromJSON data with
    | None => raise (InvalidData INVALID_DATA.BAD_JSON)
    | Some decoded => jsonReceived decoded
    end.

Definition completeConnection : M unit := wrappedProtocol_makeConnection.

Definition completeDataReceived (data : bytes) : M unit :=
  SockJSWireProtocolWrapper_dataReceived
    SockJSWireProtocolWrapper_jsonReceived data.

(** [ProtocolWrapper.connectionLost] *)
Definition completeConnectionLost (reason : exn) : M unit :=
  reg <- get registered ;;
  (if reg then modify (set_registered false) else raise KeyError) ;;
  wrappedProtocol_connectionLost reason ;;
  modify (set_wrappedProtocol None).

(** *** RequestSessionMachine: the outputs *)

(** [self.requestSession.<method>(...)] *)
Definition on_requestSession {A} (call : M A) : M A :=
  live <- get requestSession ;;
  if live then call else raise AttributeError.

Definition _openRequest (req : reqid) : M unit :=
  current <- on_requestSession (get request) ;;
  assert (bool_decide (current = None)) ;;
  modify (set_request (Some req)).

Definition _establishConnection (req : reqid) : M unit :=
  on_requestSession (establishConnection req).

Definition _completeConnection : M unit :=
  on_requestSession completeConnection.

Definition _beginRequest : M unit :=
  on_requestSession beginRequest.

Definition _completeDataReceived (data : bytes) : M unit :=
  on_requestSession (completeDataReceived data).

(** [self.buffer.extend(data)] *)
Definition _bufferWrite (data : list json) : M unit :=
  modify (fun s => set_buffer (buffer s ++ data) s).

Definition _flushBuffer (req : reqid) : M unit :=
  current <- on_requestSession (get request) ;;
  assert (bool_decide (current = Some req)) ;;
  pending <- get buffer ;;
  on_requestSession (writeData pending) ;;
  modify (set_buffer []).

Definition _dumpBuffer : M unit :=
  modify (set_buffer []).

Definition _directWrite (data : list json) : M unit :=
  on_requestSession (completeWrite data).

Definition _directHeartbeat : M unit :=
  on_requestSession completeHeartbeat.

Definition _closeRequest : M unit :=
  on_requestSession finishCurrentRequest.

Definition _closeDuplicateRequest (req : reqid) : M unit :=
  current <- on_requestSession (get request) ;;
  if bool_decide (current = Some req) then ret tt
  else on_requestSession (closeOtherRequest req STILL_OPEN).

Definition _loseConnection : M unit :=
  on_requestSession completeLoseConnection.

Definition _storeCloseReason (reason : DISCONNECT) : M unit :=
  modify (set__closeReason (Some reason)).

Definition _writeCloseReason (req : reqid) : M unit :=
  stored <- get _closeReason ;;
  match stored with
  | Some reason => on_requestSession (closeOtherRequest req reason)
  | None => ret tt
  end.

Definition _dropRequest : M unit :=
  on_requestSession (modify (set_request None)).

Definition _closeProtocol (reason : exn) : M unit :=
  on_requestSession (completeConnectionLost reason) ;;
  modify (set_requestSession false).

Definition _timedOut_output (reason : exn) : M unit :=
  let reason :=
    match reason with
    | ConnectionDone => SessionTimeout
    | _ => reason
    end in
  on_requestSession (completeConnectionLost reason) ;;
  modify (set_requestSession false).

(** An output, called with the arguments of the input that it takes. *)
Definition RSM_output (o : RSM.Output) (i : RSM.Input) : M unit :=
  match o, i with
  | RSM._openRequest, RSM.attach req => _openRequest req
  | RSM._establishConnection, RSM.attach req => _establishConnection req
  | RSM._completeConnection, RSM.attach req => _completeConnection
  | RSM._beginRequest, RSM.attach req => _beginRequest
  | RSM._completeDataReceived, RSM.receive data => _completeDataReceived data
  | RSM._bufferWrite, RSM.write data => _bufferWrite data
  | RSM._flushBuffer, RSM.attach req => _flushBuffer req
  | RSM._dumpBuffer, RSM.loseConnection => _dumpBuffer
  | RSM._directWrite, RSM.write data => _directWrite data
  | RSM._directHeartbeat, RSM.heartbeat => _directHeartbeat
  | RSM._closeRequest, (RSM.detach | RSM.loseConnection) => _closeRequest
  | RSM._closeDuplicateRequest, RSM.attach req => _closeDuplicateRequest req
  | RSM._loseConnection, RSM.loseConnection => _loseConnection
  | RSM._storeCloseReason, RSM.writeClose reason => _storeCloseReason reason
  | RSM._writeCloseReason, RSM.attach req => _writeCloseReason req
  | RSM._dropRequest, RSM.connectionLost reason => _dropRequest
  | RSM._closeProtocol, RSM.connectionLost reason => _closeProtocol reason
  | RSM._timedOut, RSM.connectionLost reason => _timedOut_output reason
  | _, _ => raise TypeError
  end.

(** An input of the [RequestSessionMachine]: automat looks the edge up,
    enters the new state, then runs the outputs in order. *)
Definition RSM_input (i : RSM.Input) : M unit :=
  st <- get state ;;
  match RSM.upon st i with
  | None => raise NoTransition
  | Some (st', outputs) =>
      modify (set_state st') ;;
      sequence (List.map (fun o => RSM_output o i) outputs)
  end.

End Session.

(** ** Closing the loop

    An output re-enters the machine through the wrapper in two places only:
    [detachFromRequest] (from [XHRSession.writeOpen], [XHRSession.writeData]
    and [XHRStreamingSession.completeWrite]) and [writeData] (from
    [_flushBuffer]); [detach] re-enters nothing and [write] re-enters
    [detach] only.  Three layers therefore hold every call chain, and
    [sessionMachine_unfold] below shows that the result is the machine that
    finds itself behind [self.sessionMachine]. *)

(** Never reached. *)
Definition no_machine : RSM.Input -> M unit := fun _ => raise (OtherError "RecursionError").

Section Machine.

Variable fromJSON : bytes -> option json.

Definition sessionMachine_input : RSM.Input -> M unit :=
  RSM_input (RSM_input (RSM_input no_machine fromJSON) fromJSON) fromJSON.

(** *** The methods of a session, as its callers see them *)

Definition session_makeConnectionFromRequest (req : reqid) : M unit :=
  makeConnectionFromRequest sessionMachine_input req.

Definition session_detachFromRequest : M unit :=
  detachFromRequest sessionMachine_input.

Definition session_dataReceived (data : bytes) : M unit :=
  dataReceived sessionMachine_input data.

Definition session_writeOpen : M unit :=
  writeOpen sessionMachine_input.

Definition session_writeData (data : list json) : M unit :=
  writeData sessionMachine_input data.

Definition session_completeWrite (data : list json) : M unit :=
  completeWrite sessionMachine_input data.

Definition session_writeHeartbeat : M unit :=
  writeHeartbeat sessionMachine_input.

Definition session_writeClose (reason : DISCONNECT) : M unit :=
  writeClose sessionMachine_input reason.

Definition session_loseConnection : M unit :=
  loseConnection sessionMachine_input.

Definition session_connectionLost (reason : exn) : M unit :=
  connectionLost sessionMachine_input reason.

(** The reactor runs [timeoutClock.timeoutCall] when it is due. *)
Definition session_timeout_due : M unit :=
  c <- get timeoutClock ;;
  if timeoutCall c then TimeoutClock__expire sessionMachine_input
  else ret tt.

(** What callers do to a session, one event at a time. *)
Inductive Event :=
  | EAttach (req : reqid)
  | EDetach
  | EWrite (data : list json)
  | EReceive (data : bytes)
  | EHeartbeat
  | EWriteClose (reason : DISCONNECT)
  | ELoseConnection
  | EConnectionLost (reason : exn)
  | ETimeoutDue.

Definition event (e : Event) : M unit :=
  match e with
  | EAttach req => session_makeConnectionFromRequest req
  | EDetach => session_detachFromRequest
  | EWrite data => session_writeData data
  | EReceive data => session_dataReceived data
  | EHeartbeat => session_writeHeartbeat
  | EWriteClose reason => session_writeClose reason
  | ELoseConnection => session_loseConnection
  | EConnectionLost reason => session_connectionLost reason
  | ETimeoutDue => session_timeout_due
  end.

(** Run the events in order; an exception is reported to the caller of
    that event and the next event finds the session as the failed one
    left it. *)
Fixpoint run (es : list Event) (s : Session) : Session :=
  match es with
  | [] => s
  | e :: rest => run rest (fst (event e s))
  end.

End Machine.

(** ** A new session *)

Definition new_SockJSProtocol : Wrapped :=
  SockJSProtocol
    (Some {| sj_state := SJM.notYetConnected; sj_transport := false;
             heartbeater := Some {| stopped := false;
                                    pendingHeartbeat := false |} |})
    0.

(** [factory.buildProtocol(...)]: the session as [__init__] leaves it. *)
Definition new_session (k : SessionKind) (maximum : Z) (wrapped : Wrapped)
  : Session :=
  {| kind := k; maximumBytes := maximum;
     state := RSM.neverConnected; buffer := []; _closeReason := None;
     requestSession := true;
     request := None; finishedNotifier := None; disconnecting := false;
     sessionMachine := true; transport := None; registered := false;
     bytesWritten := 0;
     timeoutClock := {| expired := false; timeoutCall := false |};
     terminationDeferred := None;
     wrappedProtocol := Some wrapped;
     receivedData := []; connectionsLost := [];
     requests := ∅ |}.

(** What request [r] has been written, and how often it was finished. *)
Definition written_to (r : reqid) (s : Session) : list bytes :=
  written (lookup_request r s).

Definition finished_count (r : reqid) (s : Session) : nat :=
  finished (lookup_request r s).


(** ** WebSocketProtocolWrapper

    A [SockJSWireProtocolWrapper] over a WebSocket connection.  It owns no
    session machine; of the session record it uses the wrapped protocol,
    the transport and [disconnecting]. *)

(** [try: m  except <the exceptions handler catches>: ...] *)
Definition try_except {A} (m : M A) (handler : exn -> option (M A)) : M A :=
  fun s =>
    match m s with
    | (s', Ok a) => (s', Ok a)
    | (s', Raise e) =>
        match handler e with
        | Some h => h s'
        | None => (s', Raise e)
        end
    end.

Section WebSocket.

Variable fromJSON : bytes -> option json.

Definition WebSocketProtocolWrapper_jsonReceived (decoded : json) : M unit :=
  if truthy decoded
  then SockJSWireProtocolWrapper_jsonReceived no_machine decoded
  else ret tt.

(** [ProtocolWrapper.loseConnection], inherited. *)
Definition WebSocketProtocolWrapper_loseConnection : M unit :=
  completeLoseConnection.

Definition WebSocketProtocolWrapper_dataReceived (data : bytes) : M unit :=
  if Nat.eqb (String.length data) 0 then ret tt
  else
    try_except
      (SockJSWireProtocolWrapper_dataReceived fromJSON
         WebSocketProtocolWrapper_jsonReceived data)
      (fun e =>
         match e with
         | InvalidData _ => Some WebSocketProtocolWrapper_loseConnection
         | _ => None
         end).

End WebSocket.

(** ** SessionHouse *)

(** The objects the name [failure] can denote.  Inside
    [SessionHouse._sessionClosed] the parameter is called [maybeFailure],
    so the name [failure] there is the global of the module: the module
    [twisted.python.failure] imported at the top of the file.  Inside
    [_trapCancellation] it is the parameter, a [Failure]. *)
Inductive PyObject :=
  | module_twisted_python_failure
  | Failure (e : exn).

#[global] Instance exn_eq_dec : EqDecision exn.
Proof. solve_decision. Defined.

(** [obj.trap]: the bound method of a [Failure], which returns when the
    failure is of one of [errorTypes] and raises it again otherwise; the
    module has no such attribute. *)
Definition getattr_trap (obj : PyObject) : res (list exn -> res unit) :=
  match obj with
  | module_twisted_python_failure => Raise AttributeError
  | Failure e =>
      Ok (fun errorTypes =>
            if bool_decide (e ∈ errorTypes) then Ok tt else Raise e)
  end.

(** [_trapCancellation(failure)] *)
Definition _trapCancellation (failure : exn) : res unit :=
  match getattr_trap (Failure failure) with
  | Ok trap => trap [CancelledError]
  | Raise e => Raise e
  end.

(** The registry and what [eliot.writeFailure] has logged. *)
Record SessionHouse := {
  sessions : gmap bytes Session;
  logged : list exn
}.

Definition new_SessionHouse : SessionHouse :=
  {| sessions := ∅; logged := [] |}.

(** [b'.' in identifier] *)
Fixpoint has_dot (identifier : bytes) : bool :=
  match identifier with
  | EmptyString => false
  | String c rest => if Ascii.eqb c "." then true else has_dot rest
  end.

(** [not identifier or b'.' in identifier] *)
Definition bad_identifier (identifier : bytes) : bool :=
  Nat.eqb (String.length identifier) 0 || has_dot identifier.

Definition validateAndExtractSessionID (postpath : list bytes) : option bytes :=
  match postpath with
  | [serverID; sessionID; _] =>
      if existsb bad_identifier postpath then None else Some sessionID
  | _ => None
  end.

(** The result of a deferred is a value ([Ok]) or a [Failure] ([Raise]). *)
Definition _sessionClosed (maybeFailure : res unit) (sessionID : bytes)
    (h : SessionHouse) : SessionHouse * res unit :=
  match sessions h !! sessionID with
  | None => (h, Raise KeyError)
  | Some _ =>
      let h' := {| sessions := delete sessionID (sessions h);
                   logged := logged h |} in
      match maybeFailure with
      | Raise _ =>
          match getattr_trap module_twisted_python_failure with
          | Raise e => (h', Raise e)
          | Ok trap =>
              match trap [ConnectionDone; ConnectionLost; SessionTimeout] with
              | Ok _ => (h', Ok tt)
              | Raise e => (h', Raise e)
              end
          end
      | Ok v => (h', Ok v)
      end
  end.

(** The callbacks [makeSession] adds to the session's
    [terminationDeferred]: [addBoth(self._sessionClosed, sessionID)], then
    [addErrback(eliot.writeFailure)]. *)
Definition termination_hooks (result : res unit) (sessionID : bytes)
    (h : SessionHouse) : SessionHouse :=
  match _sessionClosed result sessionID h with
  | (h', Ok _) => h'
  | (h', Raise e) => {| sessions := sessions h'; logged := logged h' ++ [e] |}
  end.

Section House.

Variable fromJSON : bytes -> option json.

(** Call a method of the session registered under [sessionID].  The
    session is mutated in place; if the call fired its
    [terminationDeferred], the callbacks above have run. *)
Definition on_session {A} (sessionID : bytes) (call : M A)
    (h : SessionHouse) : SessionHouse * res A :=
  match sessions h !! sessionID with
  | None => (h, Raise KeyError)
  | Some session =>
      let (session', result) := call session in
      let h' := {| sessions := <[sessionID := session']> (sessions h);
                   logged := logged h |} in
      match terminationDeferred session, terminationDeferred session' with
      | None, Some fired => (termination_hooks fired sessionID h', result)
      | _, _ => (h', result)
      end
  end.

(** [factory] stands for [factory.buildProtocol(...)]: the new session
    it returns. *)
Definition attachToSession (factory : Session) (postpath : list bytes)
    (req : reqid) (h : SessionHouse) : SessionHouse * res bool :=
  match validateAndExtractSessionID postpath with
  | None => (h, Ok false)
  | Some sessionID =>
      let h1 :=
        match sessions h !! sessionID with
        | Some _ => h
        | None => {| sessions := <[sessionID := factory]> (sessions h);
                     logged := logged h |}
        end in
      match on_session sessionID
              (session_makeConnectionFromRequest fromJSON req) h1 with
      | (h2, Ok _) => (h2, Ok true)
      | (h2, Raise e) => (h2, Raise e)
      end
  end.

(** [content] is [request.content.read()]. *)
Definition writeToSession (postpath : list bytes) (content : bytes)
    (h : SessionHouse) : SessionHouse * res bool :=
  match validateAndExtractSessionID postpath with
  | None => (h, Ok false)
  | Some sessionID =>
      match sessions h !! sessionID with
      | None => (h, Ok false)
      | Some _ =>
          match on_session sessionID
                  (session_dataReceived fromJSON content) h with
          | (h', Ok _) => (h', Ok true)
          | (h', Raise e) => (h', Raise e)
          end
      end
  end.

End House.


(** ** Vocabulary of the properties *)

(** The requests attached to a session: the one in [self.request]. *)
Definition attached_requests (s : Session) : list reqid :=
  match request s with
  | Some r => [r]
  | None => []
  end.

(** The two states without a request in which the session still accepts
    writes. *)
Definition detached (s : Session) : Prop :=
  state s = RSM.connectedNoTransportEmptyBuffer
  \/ state s = RSM.connectedNoTransportPending.

(** The outputs the machine runs for input [i] in state [st]; none where
    it has no edge. *)
Definition outputs_of (st : RSM.State) (i : RSM.Input) : list RSM.Output :=
  match RSM.upon st i with
  | Some (_, outputs) => outputs
  | None => []
  end.

(** What holds of a session between two events: a request is attached
    exactly in [connectedHaveTransport], and the machine and the wrapper
    let go of each other only once the machine is [disconnected]. *)
Record Inv (s : Session) : Prop := {
  inv_request : request s <> None <-> state s = RSM.connectedHaveTransport;
  inv_requestSession : requestSession s = false -> state s = RSM.disconnected;
  inv_sessionMachine : sessionMachine s = false -> state s = RSM.disconnected
}.

(** A request path as the registry wants it: three segments, none of
    them empty, none with a [.] in it. *)
Definition valid_postpath (postpath : list bytes) : Prop :=
  exists serverID sessionID transportName,
    postpath = [serverID; sessionID; transportName]
    /\ forall identifier,
         In identifier postpath ->
         identifier <> EmptyString
         /\ ~ In "."%char (list_ascii_of_string identifier).

(** Decoders for the examples: one that rejects every input, and one that
    knows a few texts. *)
Definition reject_all : bytes -> option json := fun _ => None.

Definition example_decoder (data : bytes) : option json :=
  if String.eqb data "null" then Some JNull
  else if String.eqb data "false" then Some (JBool false)
  else if String.eqb data "0" then Some (JInt 0)
  else if String.eqb data "[]" then Some (JArr [])
  else if String.eqb data "{}" then Some (JObj [])
  else if String.eqb data "[1]" then Some (JArr [JInt 1])
  else None.

(** Sessions and a registry for the examples: a plain session around a
    [SockJSProtocol] after its first attach, the same after a detach, a
    streaming session with [maximumBytes = 4] after its first attach, and a
    registry that holds one new session. *)
Definition example_attached : Session :=
  run reject_all [EAttach 1]
    (new_session RequestSessionProtocolWrapper 0 new_SockJSProtocol).

Definition example_detached : Session :=
  run reject_all [EAttach 1; EDetach]
    (new_session RequestSessionProtocolWrapper 0 new_SockJSProtocol).

Definition example_streaming : Session :=
  run reject_all [EAttach 1]
    (new_session XHRStreamingSession 4 new_SockJSProtocol).

Definition example_house : SessionHouse :=
  {| sessions :=
       {[ "session" :=
            new_session RequestSessionProtocolWrapper 0 new_SockJSProtocol ]};
     logged := [] |}.

(** ** Vocabulary of the further properties *)

(** ** Relations between a session before and after

    [keeps R m s]: run from [s], the method [m] leaves a session that [R]
    relates to [s], whether it returns or raises. *)
Definition keeps (R : Session -> Session -> Prop) {A} (m : M A) (s : Session)
  : Prop :=
  R s (fst (m s)).

(** A chunk written to a request ends with [b'\n']. *)
Definition ends_with_newline (chunk : bytes) : Prop :=
  exists body, chunk = body ++ nl.

(** Requests only gain: what was written stays, in order, what is added are
    chunks that end with a newline, and no [finish()] is taken back. *)
Definition requests_grow (s s' : Session) : Prop :=
  forall r,
    exists chunks,
      written_to r s' = (written_to r s ++ chunks)%list
      /\ Forall ends_with_newline chunks
      /\ finished_count r s <= finished_count r s'.

(** An expired [TimeoutClock] stays expired. *)
Definition expired_stays (s s' : Session) : Prop :=
  expired (timeoutClock s) = true -> expired (timeoutClock s') = true.

(** [disconnecting], once set, stays set. *)
Definition disconnecting_stays (s s' : Session) : Prop :=
  disconnecting s = true -> disconnecting s' = true.

(** What the wrapped protocol was told stays told. *)
Definition delivered_grows (s s' : Session) : Prop :=
  (exists more, receivedData s' = (receivedData s ++ more)%list)
  /\ (exists more, connectionsLost s' = (connectionsLost s ++ more)%list).

(** A fired [terminationDeferred] keeps its result. *)
Definition fired_stays (s s' : Session) : Prop :=
  forall result,
    terminationDeferred s = Some result ->
    terminationDeferred s' = Some result.

(** A [disconnected] machine stays [disconnected], and its session
    neither writes to a request nor tells the wrapped protocol anything. *)
Definition disconnected_stays (s s' : Session) : Prop :=
  state s = RSM.disconnected ->
  state s' = RSM.disconnected
  /\ requests s' = requests s
  /\ receivedData s' = receivedData s
  /\ connectionsLost s' = connectionsLost s.

(** [isinstance(e, InvalidData)] *)
Definition is_InvalidData {A} (result : res A) : bool :=
  match result with
  | Raise (InvalidData _) => true
  | _ => false
  end.

(** The machine after [loseConnection]. *)
Definition losing_connection (s : Session) : Prop :=
  state s = RSM.loseConnectionEmptyBuffer
  \/ state s = RSM.loseConnectionPending.

(** The reason the wrapped protocol is given when the connection is lost
    with writes pending. *)
Definition timed_out_reason (reason : exn) : exn :=
  match reason with
  | ConnectionDone => SessionTimeout
  | _ => reason
  end.

(** The machine leaves the termination deferred alone. *)
Definition termination_same (s s' : Session) : Prop :=
  terminationDeferred s' = terminationDeferred s.

(** The wrapped protocol is told of a lost connection when the machine
    becomes [disconnected], once, and not again. *)
Definition lost_once (s s' : Session) : Prop :=
  (state s = RSM.disconnected ->
   state s' = RSM.disconnected /\ connectionsLost s' = connectionsLost s)
  /\ (connectionsLost s' = connectionsLost s
      \/ (state s' = RSM.disconnected
          /\ exists reason,
               connectionsLost s' = (connectionsLost s ++ [reason])%list)).

(** The count of an [XHRStreamingSession] is within its bounds. *)
Definition count_in_bounds (s : Session) : Prop :=
  (0 <= bytesWritten s < maximumBytes s)%Z.

Definition count_stays_in_bounds (s s' : Session) : Prop :=
  maximumBytes s' = maximumBytes s
  /\ (count_in_bounds s -> count_in_bounds s').

(** More sessions for the examples, all around the recording protocol: a
    plain session with a write pending, one whose timeout has fired, one
    that was told to lose its connection, and an [XHRSession] with its
    first request attached. *)
Definition example_pending : Session :=
  run reject_all [EAttach 1; EDetach; EWrite [JStr "x"]]
    (new_session RequestSessionProtocolWrapper 0 (RecordingProtocol 0)).

Definition example_expired : Session :=
  run reject_all [EAttach 1; EDetach; ETimeoutDue]
    (new_session RequestSessionProtocolWrapper 0 (RecordingProtocol 0)).

Definition example_losing : Session :=
  run reject_all [EAttach 1; ELoseConnection]
    (new_session RequestSessionProtocolWrapper 0 (RecordingProtocol 0)).

Definition example_xhr : Session :=
  run reject_all [EAttach 1]
    (new_session XHRSession 0 (RecordingProtocol 0)).

(** * Properties *)

(** ** Running a session symbolically

    Unfold the methods and the record operations of the model, and nothing
    of the libraries underneath. *)

Ltac run_session :=
  lazy beta iota zeta delta [
    ret raise bind get modify assert sequence request_write request_finish
    HeartbeatClock_schedule HeartbeatClock_stop TimeoutClock_reset
    TimeoutClock_start TimeoutClock_stop write closeOtherRequest
    beginRequest establishConnection finishCurrentRequest
    completeLoseConnection SockJSWireProtocolWrapper_writeOpen
    SockJSWireProtocolWrapper_writeHeartbeat
    SockJSWireProtocolWrapper_writeData completeHeartbeat
    RequestSessionProtocolWrapper_completeWrite Recording_connectionMade
    Recording_dataReceived Recording_connectionLost call_sessionMachine
    makeConnectionFromRequest detachFromRequest dataReceived
    RequestSessionProtocolWrapper_writeData writeHeartbeat writeClose
    loseConnection terminationDeferred_errback connectionLost _timedOut
    terminationDeferred_callback TimeoutClock__expire XHRSession_writeOpen
    XHRSession_writeData XHRStreamingSession_writeOpen
    XHRStreamingSession_completeWrite writeOpen writeData completeWrite
    get_sockJSMachine put_sockJSMachine update_sockJSMachine set_sj_state
    set_sj_transport set_heartbeater on_sj_transport heartbeater_schedule
    heartbeater_stop_and_drop SJM_output SJM_input put_connectionMadeCalls
    SockJSProtocol_wrapped_makeConnection SockJSProtocol_connectionMade
    SockJSProtocol_makeConnection SockJSProtocol_dataReceived
    SockJSProtocol_write SockJSProtocol_loseConnection
    SockJSProtocol_connectionLost HeartbeatClock__sendHeartbeat
    wrappedProtocol_makeConnection wrappedProtocol_dataReceived
    wrappedProtocol_connectionLost SockJSWireProtocolWrapper_jsonReceived
    SockJSWireProtocolWrapper_dataReceived completeConnection
    completeDataReceived completeConnectionLost on_requestSession
    _openRequest _establishConnection _completeConnection _beginRequest
    _completeDataReceived _bufferWrite _flushBuffer _dumpBuffer
    _directWrite _directHeartbeat _closeRequest _closeDuplicateRequest
    _loseConnection _storeCloseReason _writeCloseReason _dropRequest
    _closeProtocol _timedOut_output RSM_output RSM_input
    sessionMachine_input session_makeConnectionFromRequest
    session_detachFromRequest session_dataReceived session_writeOpen
    session_writeData session_completeWrite session_writeHeartbeat
    session_writeClose session_loseConnection session_connectionLost
    session_timeout_due event try_except
    WebSocketProtocolWrapper_jsonReceived
    WebSocketProtocolWrapper_loseConnection
    WebSocketProtocolWrapper_dataReceived kind maximumBytes state buffer
    _closeReason requestSession request finishedNotifier disconnecting
    sessionMachine transport registered bytesWritten timeoutClock
    terminationDeferred wrappedProtocol receivedData connectionsLost
    requests set_state set_buffer set__closeReason set_requestSession
    set_request set_finishedNotifier set_disconnecting set_sessionMachine
    set_transport set_registered set_bytesWritten set_timeoutClock
    set_terminationDeferred set_wrappedProtocol set_receivedData
    set_connectionsLost set_requests RSM.upon SJM.upon List.map fst snd
    negb andb orb expired timeoutCall stopped pendingHeartbeat sj_state
    sj_transport heartbeater Nat.ltb Nat.leb
  ].

Ltac run_session_in H :=
  lazy beta iota zeta delta [
    ret raise bind get modify assert sequence request_write request_finish
    HeartbeatClock_schedule HeartbeatClock_stop TimeoutClock_reset
    TimeoutClock_start TimeoutClock_stop write closeOtherRequest
    beginRequest establishConnection finishCurrentRequest
    completeLoseConnection SockJSWireProtocolWrapper_writeOpen
    SockJSWireProtocolWrapper_writeHeartbeat
    SockJSWireProtocolWrapper_writeData completeHeartbeat
    RequestSessionProtocolWrapper_completeWrite Recording_connectionMade
    Recording_dataReceived Recording_connectionLost call_sessionMachine
    makeConnectionFromRequest detachFromRequest dataReceived
    RequestSessionProtocolWrapper_writeData writeHeartbeat writeClose
    loseConnection terminationDeferred_errback connectionLost _timedOut
    terminationDeferred_callback TimeoutClock__expire XHRSession_writeOpen
    XHRSession_writeData XHRStreamingSession_writeOpen
    XHRStreamingSession_completeWrite writeOpen writeData completeWrite
    get_sockJSMachine put_sockJSMachine update_sockJSMachine set_sj_state
    set_sj_transport set_heartbeater on_sj_transport heartbeater_schedule
    heartbeater_stop_and_drop SJM_output SJM_input put_connectionMadeCalls
    SockJSProtocol_wrapped_makeConnection SockJSProtocol_connectionMade
    SockJSProtocol_makeConnection SockJSProtocol_dataReceived
    SockJSProtocol_write SockJSProtocol_loseConnection
    SockJSProtocol_connectionLost HeartbeatClock__sendHeartbeat
    wrappedProtocol_makeConnection wrappedProtocol_dataReceived
    wrappedProtocol_connectionLost SockJSWireProtocolWrapper_jsonReceived
    SockJSWireProtocolWrapper_dataReceived completeConnection
    completeDataReceived completeConnectionLost on_requestSession
    _openRequest _establishConnection _completeConnection _beginRequest
    _completeDataReceived _bufferWrite _flushBuffer _dumpBuffer
    _directWrite _directHeartbeat _closeRequest _closeDuplicateRequest
    _loseConnection _storeCloseReason _writeCloseReason _dropRequest
    _closeProtocol _timedOut_output RSM_output RSM_input
    sessionMachine_input session_makeConnectionFromRequest
    session_detachFromRequest session_dataReceived session_writeOpen
    session_writeData session_completeWrite session_writeHeartbeat
    session_writeClose session_loseConnection session_connectionLost
    session_timeout_due event try_except
    WebSocketProtocolWrapper_jsonReceived
    WebSocketProtocolWrapper_loseConnection
    WebSocketProtocolWrapper_dataReceived kind maximumBytes state buffer
    _closeReason requestSession request finishedNotifier disconnecting
    sessionMachine transport registered bytesWritten timeoutClock
    terminationDeferred wrappedProtocol receivedData connectionsLost
    requests set_state set_buffer set__closeReason set_requestSession
    set_request set_finishedNotifier set_disconnecting set_sessionMachine
    set_transport set_registered set_bytesWritten set_timeoutClock
    set_terminationDeferred set_wrappedProtocol set_receivedData
    set_connectionsLost set_requests RSM.upon SJM.upon List.map fst snd
    negb andb orb expired timeoutCall stopped pendingHeartbeat sj_state
    sj_transport heartbeater Nat.ltb Nat.leb
  ] in H.

(** ** The state machine behind [self.sessionMachine]

    Two machines that answer [detach] and [write] alike are
    interchangeable behind the wrapper: no other input is sent from
    inside an output. *)

Lemma bind_ext {A B} (m1 m2 : M A) (k1 k2 : A -> M B) :
  (forall s, m1 s = m2 s) ->
  (forall a s, k1 a s = k2 a s) ->
  forall s, bind m1 k1 s = bind m2 k2 s.
Proof.
  intros Hm Hk s. unfold bind. rewrite Hm.
  destruct (m2 s) as [s' [a|e]]; [apply Hk | reflexivity].
Qed.

Lemma sequence_ext (ms1 ms2 : list (M unit)) :
  Forall2 (fun m1 m2 => forall s, m1 s = m2 s) ms1 ms2 ->
  forall s, sequence ms1 s = sequence ms2 s.
Proof.
  induction 1 as [|m1 m2 l1 l2 Hm _ IH]; intros s; simpl; [reflexivity|].
  apply bind_ext; [exact Hm | intros _; exact IH].
Qed.

Ltac ext_step :=
  match goal with
  | |- forall _, _ => intro
  | |- ?x = ?x => reflexivity
  | |- bind _ _ _ = bind _ _ _ => apply bind_ext
  | |- (match ?x with _ => _ end) _ = (match ?x with _ => _ end) _ =>
      destruct x
  | |- (if ?b then _ else _) _ = (if ?b then _ else _) _ => destruct b
  end.

Ltac ext := repeat ext_step.

Section Interchangeable.

Variables sm1 sm2 : RSM.Input -> M unit.
Variable fromJSON : bytes -> option json.
Hypothesis Hdetach : forall s, sm1 RSM.detach s = sm2 RSM.detach s.
Hypothesis Hwrite : forall data s, sm1 (RSM.write data) s = sm2 (RSM.write data) s.

Lemma detachFromRequest_ext s :
  detachFromRequest sm1 s = detachFromRequest sm2 s.
Proof.
  unfold detachFromRequest, call_sessionMachine. ext. apply Hdetach.
Qed.

Lemma RequestSessionProtocolWrapper_writeData_ext data s :
  RequestSessionProtocolWrapper_writeData sm1 data s
  = RequestSessionProtocolWrapper_writeData sm2 data s.
Proof.
  unfold RequestSessionProtocolWrapper_writeData, call_sessionMachine.
  ext. apply Hwrite.
Qed.

Lemma writeOpen_ext s : writeOpen sm1 s = writeOpen sm2 s.
Proof.
  unfold writeOpen, XHRSession_writeOpen. ext.
  apply detachFromRequest_ext.
Qed.

Lemma writeData_ext data s : writeData sm1 data s = writeData sm2 data s.
Proof.
  unfold writeData, XHRSession_writeData. ext;
    auto using RequestSessionProtocolWrapper_writeData_ext,
               detachFromRequest_ext.
Qed.

Lemma completeWrite_ext data s :
  completeWrite sm1 data s = completeWrite sm2 data s.
Proof.
  unfold completeWrite, XHRStreamingSession_completeWrite. ext.
  apply detachFromRequest_ext.
Qed.

Lemma SJM_input_connect_ext s :
  SJM_input sm1 SJM.connect s = SJM_input sm2 SJM.connect s.
Proof.
  unfold SJM_input. ext. apply sequence_ext.
  apply Forall2_fmap, Forall_Forall2_diag, Forall_forall.
  intros o _ s'. destruct o; simpl; try reflexivity.
  unfold on_sj_transport. ext. apply writeOpen_ext.
Qed.

Lemma SJM_input_receive_ext data s :
  SJM_input sm1 (SJM.receive data) s = SJM_input sm2 (SJM.receive data) s.
Proof.
  unfold SJM_input. ext. apply sequence_ext.
  apply Forall2_fmap, Forall_Forall2_diag, Forall_forall.
  intros o _ s'. destruct o; reflexivity.
Qed.

Lemma SJM_input_close_ext s :
  SJM_input sm1 SJM.close s = SJM_input sm2 SJM.close s.
Proof.
  unfold SJM_input. ext. apply sequence_ext.
  apply Forall2_fmap, Forall_Forall2_diag, Forall_forall.
  intros o _ s'. destruct o; reflexivity.
Qed.

Lemma completeConnection_ext s :
  completeConnection sm1 s = completeConnection sm2 s.
Proof.
  unfold completeConnection, wrappedProtocol_makeConnection,
    SockJSProtocol_makeConnection, SockJSProtocol_connectionMade.
  ext. apply SJM_input_connect_ext.
Qed.

Lemma completeDataReceived_ext data s :
  completeDataReceived sm1 fromJSON data s
  = completeDataReceived sm2 fromJSON data s.
Proof.
  unfold completeDataReceived, SockJSWireProtocolWrapper_dataReceived,
    SockJSWireProtocolWrapper_jsonReceived, wrappedProtocol_dataReceived,
    SockJSProtocol_dataReceived.
  ext. apply SJM_input_receive_ext.
Qed.

Lemma completeConnectionLost_ext reason s :
  completeConnectionLost sm1 reason s = completeConnectionLost sm2 reason s.
Proof.
  unfold completeConnectionLost, wrappedProtocol_connectionLost,
    SockJSProtocol_connectionLost.
  ext. apply SJM_input_close_ext.
Qed.

Lemma RSM_output_ext o i s :
  RSM_output sm1 fromJSON o i s = RSM_output sm2 fromJSON o i s.
Proof.
  destruct o, i; simpl; try reflexivity;
    unfold _completeConnection, _completeDataReceived, _flushBuffer,
      _directWrite, _closeProtocol, _timedOut_output, on_requestSession;
    ext;
    auto using completeConnection_ext, completeDataReceived_ext,
               completeConnectionLost_ext, writeData_ext, completeWrite_ext.
Qed.

Lemma RSM_input_ext i s :
  RSM_input sm1 fromJSON i s = RSM_input sm2 fromJSON i s.
Proof.
  unfold RSM_input. ext. apply sequence_ext.
  apply Forall2_fmap, Forall_Forall2_diag, Forall_forall.
  intros o _ s'. apply RSM_output_ext.
Qed.

End Interchangeable.

(** [detach] sends nothing back to the machine. *)
Lemma RSM_input_detach_any sm1 sm2 fromJSON s :
  RSM_input sm1 fromJSON RSM.detach s = RSM_input sm2 fromJSON RSM.detach s.
Proof.
  unfold RSM_input. ext. apply sequence_ext.
  apply Forall2_fmap, Forall_Forall2_diag, Forall_forall.
  intros o _ s'. destruct o; reflexivity.
Qed.

(** [write] sends [detach] only. *)
Lemma RSM_input_write_any sm1 sm2 fromJSON data s :
  (forall s, sm1 RSM.detach s = sm2 RSM.detach s) ->
  RSM_input sm1 fromJSON (RSM.write data) s
  = RSM_input sm2 fromJSON (RSM.write data) s.
Proof.
  intros Hdetach. unfold RSM_input. ext. apply sequence_ext.
  apply Forall2_fmap, Forall_Forall2_diag, Forall_forall.
  intros o _ s'. destruct o; simpl; try reflexivity.
  unfold _directWrite, on_requestSession. ext.
  apply completeWrite_ext. exact Hdetach.
Qed.

(** The machine of a session is the machine that its own outputs find
    behind [self.sessionMachine]: adding layers changes nothing. *)
Lemma sessionMachine_unfold fromJSON i s :
  sessionMachine_input fromJSON i s
  = RSM_input (sessionMachine_input fromJSON) fromJSON i s.
Proof.
  unfold sessionMachine_input. apply RSM_input_ext.
  - intros s'. apply RSM_input_detach_any.
  - intros data s'. apply RSM_input_write_any.
    intros s''. apply RSM_input_detach_any.
Qed.

(** ** The invariant of a session *)

Ltac break_match :=
  match goal with
  | |- context [match ?x with _ => _ end] =>
      lazymatch x with
      | context [match _ with _ => _ end] => fail
      | _ => destruct x eqn:?
      end
  end.

Ltac inv_leaf :=
  simpl; split; simpl; intros; try split; intros; congruence.

Ltac decide_same :=
  repeat match goal with
  | |- context [@bool_decide (?x = ?y) ?d] =>
      first [constr_eq x y | unify x y];
      first
        [ change (@bool_decide (x = y) d) with true
        | let b := fresh "b" in
          let E := fresh in
          set (b := @bool_decide (x = y) d);
          assert (E : b = true)
            by (subst b; apply bool_decide_eq_true_2; reflexivity);
          clearbody b; subst b ]
  end.

Ltac grind leaf :=
  repeat (repeat (run_session; decide_same); try break_match); try leaf.

(** With the state known, the invariant fixes [request],
    [requestSession] and [sessionMachine]. *)
Ltac fix_by_inv H1 H2 H3 :=
  match goal with
  | r : option reqid, b1 : bool, b2 : bool |- _ =>
      match type of H1 with
      | r <> None <-> _ =>
          destruct r as [?|];
          [ try (assert (Hc := proj1 H1 ltac:(discriminate)); discriminate Hc)
          | try (exfalso; apply (proj2 H1 eq_refl); reflexivity) ]
      end
  end;
  match type of H2 with
  | ?b = false -> _ =>
      destruct b; [ | try (specialize (H2 eq_refl); discriminate H2) ]
  end;
  match type of H3 with
  | ?b = false -> _ =>
      destruct b; [ | try (specialize (H3 eq_refl); discriminate H3) ]
  end;
  clear H1 H2 H3.

Lemma Inv_event fromJSON e s : Inv s -> Inv (fst (event fromJSON e s)).
Proof.
  intros [H1 H2 H3]. destruct s; simpl in *.
  destruct state0; fix_by_inv H1 H2 H3; destruct e; unfold event.
  all: solve [grind inv_leaf].
Qed.

(** ** Requests written and finished *)

Lemma lookup_request_set_requests r m s :
  lookup_request r (set_requests m s) = default fresh_request (m !! r).
Proof. reflexivity. Qed.

(** The close frames, byte for byte. *)
Lemma closeFrame_STILL_OPEN :
  closeFrame STILL_OPEN
  = "c[2010," ++ dquote ++ "Another connection still open" ++ dquote ++ "]".
Proof. reflexivity. Qed.

Lemma closeFrame_GO_AWAY :
  closeFrame GO_AWAY = "c[3000," ++ dquote ++ "Go away!" ++ dquote ++ "]".
Proof. reflexivity. Qed.

(** The invariant holds of every session, whatever has happened to it. *)
Lemma Inv_new_session k maximum wrapped : Inv (new_session k maximum wrapped).
Proof. split; simpl; intros; try split; intros; congruence. Qed.

Lemma Inv_run fromJSON es s : Inv s -> Inv (run fromJSON es s).
Proof.
  revert s. induction es as [|e es IH]; intros s Hs; simpl; [exact Hs|].
  apply IH, Inv_event, Hs.
Qed.

(** A session with a request attached is in [connectedHaveTransport], with
    machine and wrapper still tied to each other. *)
Lemma Inv_attached s r :
  Inv s -> request s = Some r ->
  state s = RSM.connectedHaveTransport
  /\ requestSession s = true /\ sessionMachine s = true.
Proof.
  intros [H1 H2 H3] Hreq.
  assert (Hst : state s = RSM.connectedHaveTransport)
    by (apply H1; congruence).
  split; [exact Hst|]. split.
  - destruct (requestSession s); [reflexivity|].
    specialize (H2 eq_refl). congruence.
  - destruct (sessionMachine s); [reflexivity|].
    specialize (H3 eq_refl). congruence.
Qed.

(** ** What closing a request does to it *)

Lemma closeOtherRequest_spec r reason s :
  closeOtherRequest r reason s
  = (set_requests
       (<[r := {| written := (written (lookup_request r s)
                              ++ [(closeFrame reason ++ nl)%string])%list;
                  finished := S (finished (lookup_request r s)) |}]>
          (requests s)) s,
     Ok tt).
Proof.
  destruct s.
  unfold closeOtherRequest, request_write, request_finish, bind, modify,
    lookup_request, set_requests.
  cbn [requests kind maximumBytes state buffer _closeReason requestSession
       request finishedNotifier disconnecting sessionMachine transport
       registered bytesWritten timeoutClock terminationDeferred
       wrappedProtocol receivedData connectionsLost].
  rewrite lookup_insert_eq. cbn [default written finished].
  rewrite insert_insert_eq. reflexivity.
Qed.

Lemma lookup_request_insert_eq r q m s :
  lookup_request r (set_requests (<[r := q]> m) s) = q.
Proof.
  unfold lookup_request. destruct s; cbn [requests set_requests].
  rewrite lookup_insert_eq. reflexivity.
Qed.

Lemma lookup_request_insert_ne r r' q s :
  r <> r' ->
  lookup_request r' (set_requests (<[r := q]> (requests s)) s)
  = lookup_request r' s.
Proof.
  intros Hne. unfold lookup_request. destruct s; cbn [requests set_requests].
  rewrite lookup_insert_ne by exact Hne. reflexivity.
Qed.

(** ** Duplicate attach *)

Lemma attach_while_attached fromJSON s incumbent req :
  state s = RSM.connectedHaveTransport ->
  request s = Some incumbent ->
  requestSession s = true ->
  sessionMachine_input fromJSON (RSM.attach req) s
  = if bool_decide (req = incumbent) then (s, Ok tt)
    else closeOtherRequest req STILL_OPEN s.
Proof.
  intros Hst Hreq Hlive. destruct s; simpl in *; subst.
  run_session. destruct (decide (req = incumbent)) as [->|Hd].
  - rewrite !bool_decide_eq_true_2 by reflexivity. reflexivity.
  - rewrite (bool_decide_eq_false_2 (req = incumbent)) by exact Hd.
    rewrite bool_decide_eq_false_2 by congruence. reflexivity.
Qed.

(** C4: a session holds at most one request at any time, and holds one
    exactly while its machine is in [connectedHaveTransport]; whatever the
    history of the session, when a request is attached and a different
    request [r2] is attached on top, [r2] is written the [STILL_OPEN] close
    frame followed by a newline and is finished, nothing else is written or
    finished, and the first request remains the current one. *)
Theorem C4_second_attach_closes_newcomer
    fromJSON k maximum wrapped history r1 r2 :
  let s := run fromJSON history (new_session k maximum wrapped) in
  request s = Some r1 ->
  r2 <> r1 ->
  let s' := fst (event fromJSON (EAttach r2) s) in
  length (attached_requests s) <= 1
  /\ (request s <> None <-> state s = RSM.connectedHaveTransport)
  /\ snd (event fromJSON (EAttach r2) s) = Ok tt
  /\ request s' = Some r1
  /\ state s' = RSM.connectedHaveTransport
  /\ written_to r2 s'
     = (written_to r2 s
        ++ [("c[2010," ++ dquote ++ "Another connection still open" ++ dquote
             ++ "]" ++ nl)%string])%list
  /\ finished_count r2 s' = S (finished_count r2 s)
  /\ (forall r, r <> r2 -> lookup_request r s' = lookup_request r s).
Proof.
  intros s Hreq Hne s'.
  assert (Hinv : Inv s) by apply Inv_run, Inv_new_session.
  destruct (Inv_attached s r1 Hinv Hreq) as (Hst & Hrs & Hsm).
  assert (Hev : event fromJSON (EAttach r2) s
                = closeOtherRequest r2 STILL_OPEN s).
  { unfold event, session_makeConnectionFromRequest,
      makeConnectionFromRequest, call_sessionMachine, bind, get.
    rewrite Hsm. rewrite (attach_while_attached _ _ r1) by assumption.
    rewrite bool_decide_eq_false_2 by exact Hne. reflexivity. }
  subst s'. rewrite Hev, closeOtherRequest_spec. cbn [fst snd].
  split; [unfold attached_requests; rewrite Hreq; simpl; lia|].
  split; [apply Hinv|].
  split; [reflexivity|].
  split; [destruct s; exact Hreq|].
  split; [destruct s; exact Hst|].
  unfold written_to, finished_count.
  rewrite lookup_request_insert_eq. cbn [written finished].
  split; [reflexivity|]. split; [reflexivity|].
  intros r Hr. apply lookup_request_insert_ne. congruence.
Qed.

(** C10: whatever the history of the session, attaching the request that
    is already its current request writes nothing, finishes nothing and
    leaves the whole session, its state and its current request included,
    as it was; a request is closed as a duplicate only when it is not the
    current one. *)
Theorem C10_attach_incumbent_is_noop
    fromJSON k maximum wrapped history incumbent req :
  let s := run fromJSON history (new_session k maximum wrapped) in
  request s = Some incumbent ->
  state s = RSM.connectedHaveTransport
  /\ (req = incumbent -> event fromJSON (EAttach req) s = (s, Ok tt))
  /\ (req <> incumbent ->
        event fromJSON (EAttach req) s = closeOtherRequest req STILL_OPEN s).
Proof.
  intros s Hreq.
  assert (Hinv : Inv s) by apply Inv_run, Inv_new_session.
  destruct (Inv_attached s incumbent Hinv Hreq) as (Hst & Hrs & Hsm).
  split; [exact Hst|].
  assert (Hev : event fromJSON (EAttach req) s
                = if bool_decide (req = incumbent) then (s, Ok tt)
                  else closeOtherRequest req STILL_OPEN s).
  { unfold event, session_makeConnectionFromRequest,
      makeConnectionFromRequest, call_sessionMachine, bind, get.
    rewrite Hsm. apply attach_while_attached; assumption. }
  rewrite Hev. split; intros Hr.
  - rewrite bool_decide_eq_true_2 by exact Hr. reflexivity.
  - rewrite bool_decide_eq_false_2 by exact Hr. reflexivity.
Qed.

(** ** Heartbeats *)

(** C8: the machine runs its heartbeat output, [_directHeartbeat], exactly
    for the input [heartbeat] in [connectedHaveTransport], where the
    heartbeat frame is written to the attached request; in the two
    detached states a [heartbeat] input returns normally and leaves the
    whole session as it was, so that nothing is kept for later. *)
Theorem C8_heartbeat_only_when_attached fromJSON s :
  (forall i,
     In RSM._directHeartbeat (outputs_of (state s) i)
     <-> state s = RSM.connectedHaveTransport /\ i = RSM.heartbeat)
  /\ (detached s ->
        sessionMachine_input fromJSON RSM.heartbeat s = (s, Ok tt))
  /\ (forall r,
        state s = RSM.connectedHaveTransport ->
        request s = Some r ->
        requestSession s = true ->
        sessionMachine_input fromJSON RSM.heartbeat s
        = request_write r ("h" ++ nl) s).
Proof.
  split; [|split].
  - intros i. destruct (state s), i; simpl; intuition congruence.
  - intros [Hst|Hst]; destruct s; simpl in Hst; subst; reflexivity.
  - intros r Hst Hreq Hlive. destruct s; simpl in *; subst. reflexivity.
Qed.

(** ** Writes while detached, and the flush *)

Lemma set_state_set_buffer_again st st' b b' s :
  set_state st (set_buffer b (set_state st' (set_buffer b' s)))
  = set_state st (set_buffer b s).
Proof. destruct s; reflexivity. Qed.

(** A write while detached extends the buffer and does nothing else. *)
Lemma write_while_detached fromJSON s data :
  detached s ->
  sessionMachine s = true ->
  event fromJSON (EWrite data) s
  = (set_state RSM.connectedNoTransportPending
       (set_buffer (buffer s ++ data)%list s), Ok tt).
Proof.
  intros [Hst|Hst] Hsm; destruct s; simpl in *; subst;
    destruct kind0; reflexivity.
Qed.




Lemma run_app fromJSON es1 es2 s :
  run fromJSON (es1 ++ es2) s = run fromJSON es2 (run fromJSON es1 s).
Proof.
  revert s. induction es1 as [|e es1 IH]; intros s; [reflexivity|].
  simpl. apply IH.
Qed.

Lemma run_cons fromJSON e es s :
  run fromJSON (e :: es) s = run fromJSON es (fst (event fromJSON e s)).
Proof. reflexivity. Qed.

Lemma run_nil fromJSON s : run fromJSON [] s = s.
Proof. reflexivity. Qed.

(** The session after [attach(r1); detach], whatever its class and the
    protocol it wraps. *)
Lemma after_attach_detach fromJSON k maximum wrapped r1 :
  let s := run fromJSON [EAttach r1; EDetach] (new_session k maximum wrapped) in
  state s = RSM.connectedNoTransportEmptyBuffer
  /\ request s = None
  /\ requestSession s = true
  /\ sessionMachine s = true
  /\ expired (timeoutClock s) = false
  /\ buffer s = []
  /\ _closeReason s = None
  /\ (timeoutCall (timeoutClock s) = true
      /\ disconnecting s = false
      /\ transport s = Some false
      /\ terminationDeferred s = None
      /\ kind s = k
      /\ finishedNotifier s = None)
  /\ forall r, r <> r1 -> lookup_request r s = fresh_request.
Proof.
  cbn [run]. unfold event, new_session.
  grind ltac:(idtac).
  all: cbn [fst state request requestSession sessionMachine expired
            timeoutClock buffer _closeReason timeoutCall disconnecting
            transport terminationDeferred kind finishedNotifier].
  all: repeat match goal with |- _ /\ _ => split end; try reflexivity.
  all: intros r Hr; unfold lookup_request; cbn [requests];
    rewrite ?lookup_insert_ne by congruence; rewrite lookup_empty;
    reflexivity.
Qed.


(** Reduce the projections of a session that is written out, and nothing
    else. *)
Ltac cbn_session_in_all :=
  cbn [kind maximumBytes state buffer _closeReason requestSession request
       finishedNotifier disconnecting sessionMachine transport registered
       bytesWritten timeoutClock terminationDeferred wrappedProtocol
       receivedData connectionsLost requests expired timeoutCall] in *.

(** Read the requests of a session that is written out. *)
Ltac requests_norm :=
  repeat (progress
    (unfold written_to, finished_count, lookup_request;
     cbn [fst snd from_option id written finished kind maximumBytes state
          buffer _closeReason requestSession request finishedNotifier
          disconnecting sessionMachine transport registered bytesWritten
          timeoutClock terminationDeferred wrappedProtocol receivedData
          connectionsLost requests expired timeoutCall];
     rewrite ?lookup_insert_eq)).

(** ** A stored close reason *)

(** C3, as the code has it: after [attach(r1); detach;
    writeClose(GO_AWAY); attach(r2)] with no [loseConnection] in between,
    the reason is only stored: [r2] is written nothing and becomes the
    attached request.  With [loseConnection] between [writeClose] and
    [attach(r2)], [r2] is written the close frame [c[3000,"Go away!"]]
    followed by a newline and nothing else, is finished, and is not
    attached. *)
Theorem C3_close_frame_needs_loseConnection
    fromJSON k maximum wrapped r1 r2 :
  r1 <> r2 ->
  (let s := run fromJSON
              [EAttach r1; EDetach; EWriteClose GO_AWAY; EAttach r2]
              (new_session k maximum wrapped) in
   written_to r2 s = []
   /\ finished_count r2 s = 0
   /\ request s = Some r2
   /\ _closeReason s = Some GO_AWAY)
  /\ (let s := run fromJSON
                 [EAttach r1; EDetach; EWriteClose GO_AWAY; ELoseConnection;
                  EAttach r2]
                 (new_session k maximum wrapped) in
      written_to r2 s
      = [("c[3000," ++ dquote ++ "Go away!" ++ dquote ++ "]" ++ nl)%string]
      /\ finished_count r2 s = 1
      /\ request s = None).
Proof.
  intros Hne.
  pose proof (after_attach_detach fromJSON k maximum wrapped r1)
    as (Hst & Hreq & Hrs & Hsm & Hexp & Hbuf & Hcr & (Htc & Hdis & Htr & _)
        & Hfresh).
  cbv zeta in *.
  rewrite 2 run_cons, run_nil in Hst, Hreq, Hrs, Hsm, Hexp, Hbuf, Hcr, Htc,
    Hdis, Htr, Hfresh.
  specialize (Hfresh r2 ltac:(congruence)).
  rewrite !run_cons, !run_nil.
  revert Hst Hreq Hrs Hsm Hexp Hbuf Hcr Htc Hdis Htr Hfresh.
  generalize (fst (event fromJSON EDetach
                     (fst (event fromJSON (EAttach r1)
                             (new_session k maximum wrapped))))).
  intros s Hst Hreq Hrs Hsm Hexp Hbuf Hcr Htc Hdis Htr Hfresh.
  unfold lookup_request in Hfresh.
  destruct s; destruct timeoutClock0; cbn_session_in_all. subst.
  split.
  - unfold event. repeat (run_session; decide_same).
    requests_norm. rewrite Hfresh. repeat split; reflexivity.
  - unfold event. run_session.
    requests_norm. rewrite Hfresh. repeat split; reflexivity.
Qed.

(** ** The timeout clock *)

(** The session after its first attach, when it is of the base class. *)
Lemma after_first_attach fromJSON maximum wrapped r1 :
  let s := fst (event fromJSON (EAttach r1)
                  (new_session RequestSessionProtocolWrapper maximum wrapped)) in
  state s = RSM.connectedHaveTransport
  /\ request s = Some r1
  /\ requestSession s = true
  /\ sessionMachine s = true
  /\ timeoutClock s = {| expired := false; timeoutCall := false |}
  /\ disconnecting s = false
  /\ transport s = Some false.
Proof.
  unfold event, new_session.
  grind ltac:(idtac).
  all: cbn [fst state request requestSession sessionMachine timeoutClock
            disconnecting transport].
  all: repeat match goal with |- _ /\ _ => split end; reflexivity.
Qed.

(** The attach with data pending, on the base class: the request is
    opened and the buffer flushed to it; [beginRequest] is not called. *)
Lemma attach_pending_base fromJSON s req :
  kind s = RequestSessionProtocolWrapper ->
  state s = RSM.connectedNoTransportPending ->
  request s = None ->
  requestSession s = true ->
  sessionMachine s = true ->
  event fromJSON (EAttach req) s
  = (set_buffer []
       (fst (request_write req ("a" ++ sockJSJSON (JArr (buffer s)) ++ nl)
               (set_request (Some req)
                  (set_state RSM.connectedHaveTransport s)))),
     Ok tt).
Proof.
  intros Hk Hst Hreq Hrs Hsm. destruct s; cbn_session_in_all. subst.
  unfold event. repeat (run_session; decide_same). reflexivity.
Qed.

(** C2, at the input where the code departs from it: after [attach(r1);
    detach; write(data); attach(r2)] on a plain
    [RequestSessionProtocolWrapper], request [r2] is attached and the
    timeout clock, started by the detach, is still running, because the
    attach with data pending runs [_openRequest] and [_flushBuffer] but not
    [_beginRequest]; when the clock comes due the session is torn down with
    [r2] attached.  The attach without data pending, [attach(r1); detach;
    attach(r2)], does stop the clock; detach and [loseConnection] start
    it. *)
Theorem C2_attach_with_pending_data_leaves_clock_running
    fromJSON wrapped r1 r2 data :
  let new := new_session RequestSessionProtocolWrapper 0 wrapped in
  (let s := run fromJSON [EAttach r1; EDetach; EWrite data; EAttach r2] new in
   request s = Some r2
   /\ state s = RSM.connectedHaveTransport
   /\ timeoutClock s = {| expired := false; timeoutCall := true |}
   /\ finishedNotifier s = None
   /\ state (fst (event fromJSON ETimeoutDue s)) = RSM.disconnected)
  /\ (let s := run fromJSON [EAttach r1; EDetach; EAttach r2] new in
      request s = Some r2
      /\ timeoutClock s = {| expired := false; timeoutCall := false |}
      /\ finishedNotifier s = Some r2)
  /\ (let s := run fromJSON [EAttach r1] new in
      request s = Some r1
      /\ timeoutClock s = {| expired := false; timeoutCall := false |})
  /\ (let s := run fromJSON [EAttach r1; EDetach] new in
      request s = None
      /\ timeoutClock s = {| expired := false; timeoutCall := true |})
  /\ (let s := run fromJSON [EAttach r1; ELoseConnection] new in
      request s = None
      /\ timeoutClock s = {| expired := false; timeoutCall := true |}).
Proof.
  intros new. subst new. cbv zeta.
  pose proof (after_attach_detach fromJSON RequestSessionProtocolWrapper 0
                wrapped r1)
    as (Hst & Hreq & Hrs & Hsm & Hexp & Hbuf & Hcr
        & (Htc & Hdis & Htr & Htd & Hk & Hfn) & _).
  pose proof (after_first_attach fromJSON 0 wrapped r1)
    as (Ast & Areq & Ars & Asm & Atc & Adis & Atr).
  cbv zeta in *.
  rewrite 2 run_cons, run_nil in Hst, Hreq, Hrs, Hsm, Hexp, Hbuf, Hcr, Htc,
    Hdis, Htr, Htd, Hk, Hfn.
  rewrite !run_cons, !run_nil.
  split; [|split; [|split; [|split]]].
  - revert Hst Hreq Hrs Hsm Hexp Hbuf Hcr Htc Hdis Htr Htd Hk Hfn.
    generalize (fst (event fromJSON EDetach
                       (fst (event fromJSON (EAttach r1)
                          (new_session RequestSessionProtocolWrapper 0
                             wrapped))))).
    intros s Hst Hreq Hrs Hsm Hexp Hbuf Hcr Htc Hdis Htr Htd Hk Hfn.
    rewrite write_while_detached by (try left; assumption). cbn [fst].
    rewrite attach_pending_base
      by (destruct s; cbn_session_in_all; cbn [set_state set_buffer];
          cbn_session_in_all; first [assumption | reflexivity]).
    destruct s; destruct timeoutClock0; cbn_session_in_all. subst.
    cbn [fst set_state set_buffer set_request request_write modify].
    cbn_session_in_all.
    repeat match goal with |- _ /\ _ => split end; try reflexivity.
    unfold event. grind ltac:(idtac); reflexivity.
  - revert Hst Hreq Hrs Hsm Hexp Hbuf Hcr Htc Hdis Htr Htd Hk Hfn.
    generalize (fst (event fromJSON EDetach
                       (fst (event fromJSON (EAttach r1)
                          (new_session RequestSessionProtocolWrapper 0
                             wrapped))))).
    intros s Hst Hreq Hrs Hsm Hexp Hbuf Hcr Htc Hdis Htr Htd Hk Hfn.
    destruct s; destruct timeoutClock0; cbn_session_in_all. subst.
    unfold event. repeat (run_session; decide_same).
    repeat split; reflexivity.
  - split; [exact Areq|exact Atc].
  - split; [exact Hreq|].
    destruct (timeoutClock _); cbn [expired timeoutCall] in *; congruence.
  - revert Ast Areq Ars Asm Atc Adis Atr.
    generalize (fst (event fromJSON (EAttach r1)
                       (new_session RequestSessionProtocolWrapper 0 wrapped))).
    intros s Ast Areq Ars Asm Atc Adis Atr.
    destruct s; cbn_session_in_all. subst.
    unfold event. grind ltac:(idtac).
    all: repeat split; reflexivity.
Qed.

(** ** XHRStreamingSession *)

Lemma prelude_is_2048_h :
  prelude = bytes_repeat "h" 2048 /\ String.length prelude = 2048.
Proof. split; reflexivity. Qed.


(** ** Inbound data *)

Lemma length_zero_iff_empty (data : bytes) :
  Nat.eqb (String.length data) 0 = true <-> data = EmptyString.
Proof. destruct data; simpl; split; congruence. Qed.

(** C6: [SockJSWireProtocolWrapper.dataReceived] raises [InvalidData]
    with the reason [b'Payload expected.\n'] on empty input and with
    [b'Broken JSON encoding.\n'] on input that [fromJSON] rejects, and hands
    the decoded value of any other input to the wrapped protocol, where the
    recording protocol appends it to what it has received; in the two
    failing cases nothing of the session changes, its buffer included, also
    when the data comes in through the session's own [dataReceived]. *)
Theorem C6_dataReceived_validates_payload sm fromJSON data s :
  (data = EmptyString ->
     SockJSWireProtocolWrapper_dataReceived fromJSON
       (SockJSWireProtocolWrapper_jsonReceived sm) data s
     = (s, Raise (InvalidData ("Payload expected." ++ nl))))
  /\ (data <> EmptyString -> fromJSON data = None ->
        SockJSWireProtocolWrapper_dataReceived fromJSON
          (SockJSWireProtocolWrapper_jsonReceived sm) data s
        = (s, Raise (InvalidData ("Broken JSON encoding." ++ nl))))
  /\ (forall decoded,
        data <> EmptyString -> fromJSON data = Some decoded ->
        SockJSWireProtocolWrapper_dataReceived fromJSON
          (SockJSWireProtocolWrapper_jsonReceived sm) data s
        = wrappedProtocol_dataReceived sm decoded s)
  /\ (forall decoded calls,
        wrappedProtocol s = Some (RecordingProtocol calls) ->
        wrappedProtocol_dataReceived sm decoded s
        = (set_receivedData (receivedData s ++ [decoded])%list s, Ok tt))
  /\ (data = EmptyString \/ fromJSON data = None ->
        fst (session_dataReceived fromJSON data s) = s
        /\ buffer (fst (session_dataReceived fromJSON data s)) = buffer s).
Proof.
  unfold SockJSWireProtocolWrapper_dataReceived,
    SockJSWireProtocolWrapper_jsonReceived.
  split; [|split; [|split; [|split]]].
  - intros ->. reflexivity.
  - intros Hne Hbad. destruct data; [congruence|]. cbn [String.length Nat.eqb].
    rewrite Hbad. reflexivity.
  - intros decoded Hne Hok. destruct data; [congruence|].
    cbn [String.length Nat.eqb]. rewrite Hok. reflexivity.
  - intros decoded calls Hw. unfold wrappedProtocol_dataReceived, bind, get.
    rewrite Hw. reflexivity.
  - intros Hbad.
    assert (Hsame : fst (session_dataReceived fromJSON data s) = s).
    { unfold session_dataReceived. destruct s.
      destruct state0, sessionMachine0, requestSession0; run_session;
        try reflexivity;
        (destruct (Nat.eqb (String.length data) 0) eqn:Hlen;
         [ reflexivity
         | destruct Hbad as [->|Hbad];
           [ discriminate Hlen | rewrite Hbad; reflexivity ] ]). }
    split; [exact Hsame | rewrite Hsame; reflexivity].
Qed.

(** ** WebSocketProtocolWrapper *)

(** The wrapped protocol never raises [InvalidData] itself. *)
Lemma wrappedProtocol_dataReceived_not_InvalidData decoded s :
  forall reason,
    snd (wrappedProtocol_dataReceived no_machine decoded s)
    <> Raise (InvalidData reason).
Proof.
  intros reason. unfold wrappedProtocol_dataReceived. destruct s.
  grind ltac:(idtac); cbn [snd]; congruence.
Qed.

Lemma truthy_false_iff decoded :
  truthy decoded = false
  <-> decoded = JNull \/ decoded = JBool false \/ decoded = JInt 0
      \/ decoded = JStr EmptyString \/ decoded = JArr [] \/ decoded = JObj [].
Proof.
  split.
  - destruct decoded as [|[]|z|str|items|members]; simpl; intros H;
      try discriminate; auto.
    + right; right; left. apply negb_false_iff, Z.eqb_eq in H. congruence.
    + destruct str; [auto 6|discriminate].
    + destruct items; [auto 6|discriminate].
    + destruct members; [auto 7|discriminate].
  - intros [->|[->|[->|[->|[->| ->]]]]]; reflexivity.
Qed.

(** C9: [WebSocketProtocolWrapper.dataReceived] ignores empty input and
    drops every decoded value that is false in Python, namely [null],
    [false], [0], the empty string, the empty array and the empty object: in
    both cases it returns normally and nothing of the wrapper changes.  A
    decoded value that is true is handed to the wrapped protocol, and the
    wrapped protocol receives something only in that case. *)
Theorem C9_websocket_drops_falsy_payloads fromJSON data s :
  (data = EmptyString ->
     WebSocketProtocolWrapper_dataReceived fromJSON data s = (s, Ok tt))
  /\ (forall decoded,
        fromJSON data = Some decoded -> truthy decoded = false ->
        WebSocketProtocolWrapper_dataReceived fromJSON data s = (s, Ok tt))
  /\ (forall decoded,
        data <> EmptyString -> fromJSON data = Some decoded ->
        truthy decoded = true ->
        WebSocketProtocolWrapper_dataReceived fromJSON data s
        = wrappedProtocol_dataReceived no_machine decoded s)
  /\ (forall decoded,
        truthy decoded = false
        <-> decoded = JNull \/ decoded = JBool false \/ decoded = JInt 0
            \/ decoded = JStr EmptyString \/ decoded = JArr []
            \/ decoded = JObj [])
  /\ (receivedData (fst (WebSocketProtocolWrapper_dataReceived fromJSON data s))
      <> receivedData s ->
      exists decoded,
        data <> EmptyString /\ fromJSON data = Some decoded
        /\ truthy decoded = true).
Proof.
  assert (Hempty : data = EmptyString ->
     WebSocketProtocolWrapper_dataReceived fromJSON data s = (s, Ok tt)).
  { intros ->. reflexivity. }
  assert (Hfalsy : forall decoded,
        fromJSON data = Some decoded -> truthy decoded = false ->
        WebSocketProtocolWrapper_dataReceived fromJSON data s = (s, Ok tt)).
  { intros decoded Hok Hf. destruct data; [reflexivity|].
    unfold WebSocketProtocolWrapper_dataReceived,
      SockJSWireProtocolWrapper_dataReceived,
      WebSocketProtocolWrapper_jsonReceived, try_except.
    cbn [String.length Nat.eqb]. rewrite Hok, Hf. reflexivity. }
  assert (Htruthy : forall decoded,
        data <> EmptyString -> fromJSON data = Some decoded ->
        truthy decoded = true ->
        WebSocketProtocolWrapper_dataReceived fromJSON data s
        = wrappedProtocol_dataReceived no_machine decoded s).
  { intros decoded Hne Hok Ht. destruct data; [congruence|].
    unfold WebSocketProtocolWrapper_dataReceived,
      SockJSWireProtocolWrapper_dataReceived,
      WebSocketProtocolWrapper_jsonReceived,
      SockJSWireProtocolWrapper_jsonReceived, try_except.
    cbn [String.length Nat.eqb]. rewrite Hok, Ht.
    pose proof (wrappedProtocol_dataReceived_not_InvalidData decoded s) as Hno.
    destruct (wrappedProtocol_dataReceived no_machine decoded s)
      as [s1 [u|e]]; [reflexivity|].
    destruct e; try reflexivity. exfalso. eapply Hno. reflexivity. }
  split; [exact Hempty|]. split; [exact Hfalsy|]. split; [exact Htruthy|].
  split; [exact truthy_false_iff|].
  intros Hchanged.
  destruct data as [|c rest].
  { exfalso. apply Hchanged. rewrite Hempty by reflexivity. reflexivity. }
  destruct (fromJSON (String c rest)) as [decoded|] eqn:Hok.
  - destruct (truthy decoded) eqn:Ht.
    + exists decoded. repeat split; congruence.
    + exfalso. apply Hchanged.
      rewrite (Hfalsy decoded) by (first [assumption | reflexivity]).
      reflexivity.
  - exfalso. apply Hchanged.
    unfold WebSocketProtocolWrapper_dataReceived,
      SockJSWireProtocolWrapper_dataReceived, try_except,
      WebSocketProtocolWrapper_loseConnection.
    cbn [String.length Nat.eqb]. rewrite Hok. unfold raise.
    destruct s. grind ltac:(idtac); reflexivity.
Qed.

(** ** SessionHouse *)

Lemma has_dot_spec identifier :
  has_dot identifier = true <-> In "."%char (list_ascii_of_string identifier).
Proof.
  induction identifier as [|c rest IH]; simpl.
  - split; [discriminate|tauto].
  - destruct (Ascii.eqb_spec c "."%char) as [->|Hne].
    + split; auto.
    + rewrite IH. split; [auto|]. intros [Heq|Hin]; [congruence|exact Hin].
Qed.

Lemma bad_identifier_spec identifier :
  bad_identifier identifier = false
  <-> identifier <> EmptyString
      /\ ~ In "."%char (list_ascii_of_string identifier).
Proof.
  unfold bad_identifier. rewrite orb_false_iff.
  rewrite <- (has_dot_spec identifier).
  split.
  - intros [Hlen Hdot]. split.
    + intros ->. discriminate Hlen.
    + rewrite Hdot. discriminate.
  - intros [Hne Hdot]. split.
    + destruct identifier; [congruence|reflexivity].
    + destruct (has_dot identifier); [exfalso; auto|reflexivity].
Qed.

Lemma validateAndExtractSessionID_spec postpath :
  validateAndExtractSessionID postpath = None <-> ~ valid_postpath postpath.
Proof.
  unfold validateAndExtractSessionID, valid_postpath.
  destruct postpath as [|a [|b [|c [|d rest]]]];
    try (split; [intros _ (x & y & z & Heq & _); discriminate Heq | reflexivity]).
  destruct (existsb bad_identifier [a; b; c]) eqn:Hbad.
  - split; [|reflexivity]. intros _ (x & y & z & _ & Hall).
    apply existsb_exists in Hbad as (identifier & Hin & Hb).
    apply Hall, bad_identifier_spec in Hin. congruence.
  - split; [discriminate|]. intros Hnot. exfalso. apply Hnot.
    exists a, b, c. split; [reflexivity|]. intros identifier Hin.
    apply bad_identifier_spec.
    destruct (bad_identifier identifier) eqn:Hb; [|reflexivity].
    assert (existsb bad_identifier [a; b; c] = true)
      by (apply existsb_exists; eauto).
    congruence.
Qed.

(** C5, with the place where the code departs from it.  [attachToSession]
    returns [False] exactly for a path that is not made of three non-empty
    segments without a [.], and the callbacks added to a new session's
    [terminationDeferred] remove its entry from the registry.  But
    [_sessionClosed] traps nothing: for every failure, [ConnectionDone],
    [ConnectionLost] and [SessionTimeout] included, its [failure.trap] is
    looked up on the module [twisted.python.failure], the lookup raises
    [AttributeError], and it is this [AttributeError] that
    [eliot.writeFailure] logs; a result that is not a failure passes
    through and nothing is logged. *)
Theorem C5_sessionClosed_traps_nothing fromJSON :
  (forall factory postpath req h,
     snd (attachToSession fromJSON factory postpath req h) = Ok false
     <-> ~ valid_postpath postpath)
  /\ (forall h sessionID session result,
        sessions h !! sessionID = Some session ->
        sessions (termination_hooks result sessionID h) !! sessionID = None)
  /\ (forall h sessionID session e,
        sessions h !! sessionID = Some session ->
        snd (_sessionClosed (Raise e) sessionID h) = Raise AttributeError
        /\ logged (termination_hooks (Raise e) sessionID h)
           = (logged h ++ [AttributeError])%list)
  /\ (forall h sessionID session,
        sessions h !! sessionID = Some session ->
        logged (termination_hooks (Ok tt) sessionID h) = logged h).
Proof.
  split; [|split; [|split]].
  - intros factory postpath req h.
    rewrite <- validateAndExtractSessionID_spec. unfold attachToSession.
    destruct (validateAndExtractSessionID postpath) as [sessionID|];
      [|split; reflexivity].
    split; [|discriminate].
    destruct (on_session _ _ _) as [h2 [u|e]]; cbn [snd]; discriminate.
  - intros h sessionID session result Hin.
    unfold termination_hooks, _sessionClosed. rewrite Hin.
    destruct result; cbn [getattr_trap sessions]; apply lookup_delete_eq.
  - intros h sessionID session e Hin.
    unfold termination_hooks, _sessionClosed. rewrite Hin.
    cbn [getattr_trap snd logged]. split; reflexivity.
  - intros h sessionID session Hin.
    unfold termination_hooks, _sessionClosed. rewrite Hin. reflexivity.
Qed.

(** ** The theorems at concrete sessions *)

Lemma C4_witness :
  request example_attached = Some 1
  /\ 2 <> 1
  /\ request (fst (event reject_all (EAttach 2) example_attached)) = Some 1
  /\ finished_count 2 (fst (event reject_all (EAttach 2) example_attached))
     = S (finished_count 2 example_attached).
Proof.
  unfold example_attached.
  assert (H1 : request
                 (run reject_all [EAttach 1]
                    (new_session RequestSessionProtocolWrapper 0
                       new_SockJSProtocol)) = Some 1)
    by (vm_compute; reflexivity).
  assert (H2 : 2 <> 1) by lia.
  split; [exact H1|]. split; [exact H2|].
  destruct (C4_second_attach_closes_newcomer reject_all
              RequestSessionProtocolWrapper 0 new_SockJSProtocol
              [EAttach 1] 1 2 H1 H2)
    as (_ & _ & _ & Hreq & _ & _ & Hfin & _).
  split; [exact Hreq|exact Hfin].
Defined.

Lemma C10_witness :
  request example_attached = Some 1
  /\ 1 = 1
  /\ event reject_all (EAttach 1) example_attached = (example_attached, Ok tt).
Proof.
  unfold example_attached.
  assert (H1 : request
                 (run reject_all [EAttach 1]
                    (new_session RequestSessionProtocolWrapper 0
                       new_SockJSProtocol)) = Some 1)
    by (vm_compute; reflexivity).
  split; [exact H1|]. split; [reflexivity|].
  destruct (C10_attach_incumbent_is_noop reject_all
              RequestSessionProtocolWrapper 0 new_SockJSProtocol
              [EAttach 1] 1 1 H1)
    as (_ & Hsame & _).
  exact (Hsame eq_refl).
Defined.

Lemma C8_witness :
  detached example_detached
  /\ sessionMachine_input reject_all RSM.heartbeat example_detached
     = (example_detached, Ok tt).
Proof.
  assert (H1 : detached example_detached)
    by (left; vm_compute; reflexivity).
  split; [exact H1|].
  exact (proj1 (proj2 (C8_heartbeat_only_when_attached reject_all
                         example_detached)) H1).
Defined.


Lemma C3_witness :
  1 <> 2
  /\ request
       (run reject_all [EAttach 1; EDetach; EWriteClose GO_AWAY; EAttach 2]
          (new_session RequestSessionProtocolWrapper 0 new_SockJSProtocol))
     = Some 2.
Proof.
  assert (H1 : 1 <> 2) by lia.
  split; [exact H1|].
  destruct (C3_close_frame_needs_loseConnection reject_all
              RequestSessionProtocolWrapper 0 new_SockJSProtocol 1 2 H1)
    as ((_ & _ & Hreq & _) & _).
  exact Hreq.
Defined.

Lemma C5_witness :
  sessions example_house !! "session"
  = Some (new_session RequestSessionProtocolWrapper 0 new_SockJSProtocol)
  /\ snd (_sessionClosed (Raise ConnectionDone) "session" example_house)
     = Raise AttributeError.
Proof.
  assert (H1 : sessions example_house !! "session"
               = Some (new_session RequestSessionProtocolWrapper 0
                         new_SockJSProtocol))
    by (vm_compute; reflexivity).
  split; [exact H1|].
  destruct (C5_sessionClosed_traps_nothing reject_all)
    as (_ & _ & Hslip & _).
  exact (proj1 (Hslip example_house "session" _ ConnectionDone H1)).
Defined.

Lemma C6_witness :
  EmptyString = EmptyString
  /\ SockJSWireProtocolWrapper_dataReceived example_decoder
       (SockJSWireProtocolWrapper_jsonReceived no_machine) EmptyString
       example_attached
     = (example_attached, Raise (InvalidData ("Payload expected." ++ nl))).
Proof.
  split; [reflexivity|].
  exact (proj1 (C6_dataReceived_validates_payload no_machine example_decoder
                  EmptyString example_attached) eq_refl).
Defined.


Lemma C9_witness :
  example_decoder "0" = Some (JInt 0)
  /\ truthy (JInt 0) = false
  /\ WebSocketProtocolWrapper_dataReceived example_decoder "0"
       example_attached
     = (example_attached, Ok tt).
Proof.
  assert (H1 : example_decoder "0" = Some (JInt 0))
    by (vm_compute; reflexivity).
  assert (H2 : truthy (JInt 0) = false) by reflexivity.
  split; [exact H1|]. split; [exact H2|].
  exact (proj1 (proj2 (C9_websocket_drops_falsy_payloads example_decoder "0"
                         example_attached)) (JInt 0) H1 H2).
Defined.

(** ** Where the specification and the code part *)


(** S4 as the specification words it: without [loseConnection] the close
    frame is not among what [r2] receives; [r2] receives nothing. *)
Lemma C3_counterexample :
  ~ In ("c[3000," ++ dquote ++ "Go away!" ++ dquote ++ "]" ++ nl)%string
       (written_to 2
          (run reject_all
             [EAttach 1; EDetach; EWriteClose GO_AWAY; EAttach 2]
             (new_session RequestSessionProtocolWrapper 0
                new_SockJSProtocol))).
Proof. vm_compute. intros H. exact H. Qed.

(** * Further properties *)

(** ** What no method undoes *)

Section Keeps.

Context (R : Session -> Session -> Prop) `{!PreOrder R}.

Lemma keeps_ret {A} (a : A) s : keeps R (ret a) s.
Proof. unfold keeps. simpl. reflexivity. Qed.

Lemma keeps_raise {A} e s : keeps R (@raise A e) s.
Proof. unfold keeps. simpl. reflexivity. Qed.

Lemma keeps_get {A} (f : Session -> A) s : keeps R (get f) s.
Proof. unfold keeps. simpl. reflexivity. Qed.

Lemma keeps_assert b s : keeps R (assert b) s.
Proof. destruct b; [apply keeps_ret | apply keeps_raise]. Qed.

Lemma keeps_modify f s : R s (f s) -> keeps R (modify f) s.
Proof. intros H. exact H. Qed.

Lemma keeps_bind {A B} (m : M A) (k : A -> M B) s :
  keeps R m s ->
  (forall a s', keeps R (k a) s') ->
  keeps R (bind m k) s.
Proof.
  unfold keeps, bind. intros Hm Hk.
  destruct (m s) as [s' [a|e]]; simpl in *; [|exact Hm].
  etransitivity; [exact Hm | apply Hk].
Qed.

(** What [get] has read is known to the statements that follow. *)
Lemma keeps_bind_get {A B} (f : Session -> A) (k : A -> M B) s :
  keeps R (k (f s)) s -> keeps R (bind (get f) k) s.
Proof. intros H. exact H. Qed.

Lemma keeps_sequence_map {O} (f : O -> M unit) (os : list O) :
  (forall o s, keeps R (f o) s) ->
  forall s, keeps R (sequence (List.map f os)) s.
Proof.
  intros Hf. induction os as [|o os IH]; intros s; simpl.
  - apply keeps_ret.
  - apply keeps_bind; [apply Hf | intros _; exact IH].
Qed.

(** The deferred keeps what its callback returns or raises. *)
Lemma keeps_callback (m : M unit) s :
  keeps R m s ->
  (forall e s', R s' (set_terminationDeferred (Some (Raise e)) s')) ->
  keeps R (fun s =>
             match m s with
             | (s', Ok _) => (s', Ok tt)
             | (s', Raise e) =>
                 (set_terminationDeferred (Some (Raise e)) s', Ok tt)
             end) s.
Proof.
  unfold keeps. intros Hm Hset.
  destruct (m s) as [s' [a|e]]; simpl in *; [exact Hm|].
  etransitivity; [exact Hm | apply Hset].
Qed.

Lemma keeps_run fromJSON :
  (forall e s, keeps R (event fromJSON e) s) ->
  forall es s, R s (run fromJSON es s).
Proof.
  intros He es. induction es as [|e es IH]; intros s; simpl.
  - reflexivity.
  - etransitivity; [apply He | apply IH].
Qed.

End Keeps.

Ltac head_of t :=
  lazymatch t with
  | ?f _ => head_of f
  | _ => t
  end.

(** One step through the text of a method: [special] knows the statements
    that [R] needs a lemma for, [leaf] solves [R s (f s)] for the
    assignments. *)
Ltac keeps_step special leaf :=
  first
    [ special
    | lazymatch goal with
      | |- PreOrder _ => typeclasses eauto
      | |- forall _, _ => intro
      | |- keeps _ (ret _) _ => apply keeps_ret
      | |- keeps _ (raise _) _ => apply keeps_raise
      | |- keeps _ (get _) _ => apply keeps_get
      | |- keeps _ (assert _) _ => apply keeps_assert
      | |- keeps _ (bind (get _) _) _ => apply keeps_bind_get; cbv beta
      | |- keeps _ (bind _ _) _ => apply keeps_bind
      | |- keeps _ (modify _) _ => apply keeps_modify; leaf
      | |- keeps _ (sequence (List.map _ _)) _ => apply keeps_sequence_map
      | |- keeps _ (fun _ => match _ with _ => _ end) _ =>
          apply keeps_callback; [ typeclasses eauto | | intros; leaf ]
      | |- keeps _ (match ?x with _ => _ end) _ => destruct x eqn:?
      | H : forall i s, keeps _ (?sm i) s |- keeps _ (?sm _) _ => apply H
      | |- keeps _ ?m _ => let h := head_of m in unfold h
      end ].

Ltac keeps_go special leaf := repeat keeps_step special leaf.

(** *** Requests only gain *)

#[local] Instance requests_grow_preorder : PreOrder requests_grow.
Proof.
  split.
  - intros s r. exists []. rewrite app_nil_r. repeat split; auto.
  - intros s1 s2 s3 H12 H23 r.
    destruct (H12 r) as (c1 & E1 & F1 & L1).
    destruct (H23 r) as (c2 & E2 & F2 & L2).
    exists (c1 ++ c2)%list. rewrite E2, E1, app_assoc.
    repeat split; [apply Forall_app; auto | lia].
Qed.

Lemma requests_grow_same s s' : requests s' = requests s -> requests_grow s s'.
Proof.
  intros E r. exists []. unfold written_to, finished_count, lookup_request.
  rewrite E, app_nil_r. repeat split; auto.
Qed.

Lemma keeps_request_write r data s :
  ends_with_newline data -> keeps requests_grow (request_write r data) s.
Proof.
  intros Hnl r'. unfold request_write, modify, written_to, finished_count.
  cbn [fst]. destruct (decide (r = r')) as [<-|Hne].
  - rewrite lookup_request_insert_eq. cbn [written finished].
    exists [data]. repeat split; auto.
  - rewrite lookup_request_insert_ne by exact Hne.
    exists []. rewrite app_nil_r. repeat split; auto.
Qed.

Lemma keeps_request_finish r s : keeps requests_grow (request_finish r) s.
Proof.
  intros r'. unfold request_finish, modify, written_to, finished_count.
  cbn [fst]. destruct (decide (r = r')) as [<-|Hne].
  - rewrite lookup_request_insert_eq. cbn [written finished].
    exists []. rewrite app_nil_r. repeat split; auto.
  - rewrite lookup_request_insert_ne by exact Hne.
    exists []. rewrite app_nil_r. repeat split; auto.
Qed.

Ltac requests_special :=
  idtac;
  lazymatch goal with
  | |- keeps _ (request_write _ _) _ =>
      apply keeps_request_write; eexists; reflexivity
  | |- keeps _ (request_finish _) _ => apply keeps_request_finish
  end.

Ltac destruct_matches :=
  repeat match goal with
         | |- context [match ?x with _ => _ end] => destruct x
         end.

Ltac requests_same :=
  apply requests_grow_same;
  unfold put_sockJSMachine, put_connectionMadeCalls;
  destruct_matches; reflexivity.

Section RequestsGrow.

Variable sm : RSM.Input -> M unit.
Variable fromJSON : bytes -> option json.
Hypothesis Hsm : forall i s, keeps requests_grow (sm i) s.

Lemma requests_grow_RSM_input i s :
  keeps requests_grow (RSM_input sm fromJSON i) s.
Proof. keeps_go requests_special requests_same. Qed.

End RequestsGrow.

Lemma requests_grow_sessionMachine_input fromJSON i s :
  keeps requests_grow (sessionMachine_input fromJSON i) s.
Proof.
  unfold sessionMachine_input.
  do 3 (apply requests_grow_RSM_input; intros).
  apply keeps_raise. typeclasses eauto.
Qed.

Lemma requests_grow_event fromJSON e s :
  keeps requests_grow (event fromJSON e) s.
Proof.
  pose proof (requests_grow_sessionMachine_input fromJSON) as Hsm.
  keeps_go requests_special requests_same.
Qed.

(** X1: whatever is done to a session, in whatever order, a request keeps
    every chunk that was written to it, in order; what is written to it
    later comes after, each chunk ending with a newline; and the number of
    times it was finished never goes down. *)
Theorem X1_requests_only_gain fromJSON es s r :
  exists chunks,
    written_to r (run fromJSON es s) = (written_to r s ++ chunks)%list
    /\ Forall ends_with_newline chunks
    /\ finished_count r s <= finished_count r (run fromJSON es s).
Proof.
  exact (keeps_run requests_grow fromJSON (requests_grow_event fromJSON) es s r).
Qed.

(** *** The flags that are never cleared *)

#[local] Instance expired_stays_preorder : PreOrder expired_stays.
Proof. split; unfold expired_stays; [intros s | intros s1 s2 s3]; auto. Qed.

#[local] Instance disconnecting_stays_preorder : PreOrder disconnecting_stays.
Proof. split; unfold disconnecting_stays; [intros s | intros s1 s2 s3]; auto. Qed.

#[local] Instance disconnected_stays_preorder : PreOrder disconnected_stays.
Proof.
  split; unfold disconnected_stays; [intros s | intros s1 s2 s3]; auto.
  intros H12 H23 H1. destruct (H12 H1) as (A & B & C & D).
  destruct (H23 A) as (A' & B' & C' & D'). repeat split; congruence.
Qed.

#[local] Instance fired_stays_preorder : PreOrder fired_stays.
Proof. split; unfold fired_stays; [intros s | intros s1 s2 s3]; auto. Qed.

#[local] Instance delivered_grows_preorder : PreOrder delivered_grows.
Proof.
  split.
  - intros s. split; exists []; rewrite app_nil_r; reflexivity.
  - intros s1 s2 s3 [[a1 A1] [b1 B1]] [[a2 A2] [b2 B2]].
    split; [exists (a1 ++ a2)%list | exists (b1 ++ b2)%list].
    + rewrite A2, A1, app_assoc. reflexivity.
    + rewrite B2, B1, app_assoc. reflexivity.
Qed.

Ltac no_special := fail.

Ltac flag_leaf :=
  unfold expired_stays, disconnecting_stays, disconnected_stays, fired_stays,
    put_sockJSMachine, put_connectionMadeCalls;
  destruct_matches; simpl; solve [auto | intros; congruence].

Section ExpiredStays.

Variable sm : RSM.Input -> M unit.
Variable fromJSON : bytes -> option json.
Hypothesis Hsm : forall i s, keeps expired_stays (sm i) s.

Lemma expired_stays_RSM_input i s :
  keeps expired_stays (RSM_input sm fromJSON i) s.
Proof. keeps_go no_special flag_leaf. Qed.

End ExpiredStays.

Lemma expired_stays_sessionMachine_input fromJSON i s :
  keeps expired_stays (sessionMachine_input fromJSON i) s.
Proof.
  unfold sessionMachine_input.
  do 3 (apply expired_stays_RSM_input; intros).
  apply keeps_raise. typeclasses eauto.
Qed.

Lemma expired_stays_event fromJSON e s :
  keeps expired_stays (event fromJSON e) s.
Proof.
  pose proof (expired_stays_sessionMachine_input fromJSON) as Hsm.
  keeps_go no_special flag_leaf.
Qed.

Section DisconnectingStays.

Variable sm : RSM.Input -> M unit.
Variable fromJSON : bytes -> option json.
Hypothesis Hsm : forall i s, keeps disconnecting_stays (sm i) s.

Lemma disconnecting_stays_RSM_input i s :
  keeps disconnecting_stays (RSM_input sm fromJSON i) s.
Proof. keeps_go no_special flag_leaf. Qed.

End DisconnectingStays.

Lemma disconnecting_stays_sessionMachine_input fromJSON i s :
  keeps disconnecting_stays (sessionMachine_input fromJSON i) s.
Proof.
  unfold sessionMachine_input.
  do 3 (apply disconnecting_stays_RSM_input; intros).
  apply keeps_raise. typeclasses eauto.
Qed.

Lemma disconnecting_stays_event fromJSON e s :
  keeps disconnecting_stays (event fromJSON e) s.
Proof.
  pose proof (disconnecting_stays_sessionMachine_input fromJSON) as Hsm.
  keeps_go no_special flag_leaf.
Qed.

(** X2: once a session's timeout has expired it stays expired, whatever is
    done to the session afterwards: [start] and [reset] raise
    [RuntimeError] and leave the clock alone, [stop] does nothing. *)
Theorem X2_expired_timeout_is_final fromJSON es s :
  expired (timeoutClock s) = true ->
  let s' := run fromJSON es s in
  expired (timeoutClock s') = true
  /\ TimeoutClock_start s' = (s', Raise RuntimeError)
  /\ TimeoutClock_reset s' = (s', Raise RuntimeError)
  /\ TimeoutClock_stop s' = (s', Ok tt).
Proof.
  intros H s'.
  assert (H' : expired (timeoutClock s') = true)
    by exact (keeps_run expired_stays fromJSON
                (expired_stays_event fromJSON) es s H).
  unfold TimeoutClock_start, TimeoutClock_reset, TimeoutClock_stop, bind, get.
  rewrite H'. repeat split; reflexivity.
Qed.

(** X3: [loseConnection] acts once.  After a first call, whether it
    returned or raised and whatever was done to the session since, a
    further call returns at once and changes nothing. *)
Theorem X3_loseConnection_acts_once fromJSON s es :
  let s' := run fromJSON es (fst (session_loseConnection fromJSON s)) in
  session_loseConnection fromJSON s' = (s', Ok tt).
Proof.
  intros s'.
  assert (H1 : disconnecting (fst (session_loseConnection fromJSON s)) = true).
  { unfold session_loseConnection, loseConnection, bind at 1, get.
    destruct (disconnecting s) eqn:Hd; cbn [negb]; [exact Hd|].
    unfold bind at 1, modify.
    pose proof (disconnecting_stays_sessionMachine_input fromJSON) as Hsm.
    assert (K : keeps disconnecting_stays
                  (call_sessionMachine (sessionMachine_input fromJSON)
                     RSM.loseConnection ;; TimeoutClock_start)
                  (set_disconnecting true s))
      by keeps_go no_special flag_leaf.
    apply K. reflexivity. }
  assert (H' : disconnecting s' = true)
    by exact (keeps_run disconnecting_stays fromJSON
                (disconnecting_stays_event fromJSON) es _ H1).
  unfold session_loseConnection, loseConnection, bind, get.
  rewrite H'. reflexivity.
Qed.

(** *** The termination deferred *)

Ltac fired_special :=
  idtac;
  lazymatch goal with
  | H : terminationDeferred ?s = None |- keeps fired_stays _ ?s =>
      unfold keeps, fired_stays; intros ? ?; congruence
  end.

Section FiredStays.

Variable sm : RSM.Input -> M unit.
Variable fromJSON : bytes -> option json.
Hypothesis Hsm : forall i s, keeps fired_stays (sm i) s.

Lemma fired_stays_RSM_input i s :
  keeps fired_stays (RSM_input sm fromJSON i) s.
Proof. keeps_go fired_special flag_leaf. Qed.

End FiredStays.

Lemma fired_stays_sessionMachine_input fromJSON i s :
  keeps fired_stays (sessionMachine_input fromJSON i) s.
Proof.
  unfold sessionMachine_input.
  do 3 (apply fired_stays_RSM_input; intros).
  apply keeps_raise. typeclasses eauto.
Qed.

Lemma fired_stays_event fromJSON e s :
  keeps fired_stays (event fromJSON e) s.
Proof.
  pose proof (fired_stays_sessionMachine_input fromJSON) as Hsm.
  keeps_go fired_special flag_leaf.
Qed.

(** X4: the termination deferred of a session fires once.  When it has a
    result, no later call changes the result: [errback] and [callback]
    raise [AlreadyCalledError] before they touch it. *)
Theorem X4_terminationDeferred_fires_once fromJSON es s result :
  terminationDeferred s = Some result ->
  terminationDeferred (run fromJSON es s) = Some result.
Proof.
  exact (keeps_run fired_stays fromJSON (fired_stays_event fromJSON)
           es s result).
Qed.

(** *** After the connection is lost *)

Lemma disconnected_RSM_input sm fromJSON i s :
  state s = RSM.disconnected ->
  RSM_input sm fromJSON i s = (s, Raise NoTransition).
Proof.
  intros Hd. unfold RSM_input, bind, get. rewrite Hd.
  destruct i; reflexivity.
Qed.

Lemma disconnected_stays_sessionMachine_input fromJSON i s :
  keeps disconnected_stays (sessionMachine_input fromJSON i) s.
Proof.
  intros Hd. unfold sessionMachine_input.
  rewrite disconnected_RSM_input by exact Hd. auto.
Qed.

Ltac disconnected_leaf :=
  unfold disconnected_stays, put_sockJSMachine, put_connectionMadeCalls;
  destruct_matches; simpl; solve [auto].

Lemma disconnected_stays_event fromJSON e s :
  keeps disconnected_stays (event fromJSON e) s.
Proof.
  pose proof (disconnected_stays_sessionMachine_input fromJSON) as Hsm.
  keeps_go no_special disconnected_leaf.
Qed.

(** X5: [disconnected] is final.  Once the machine of a session is
    [disconnected], every input raises [NoTransition], and whatever is
    done to the session it stays [disconnected], writes to no request,
    finishes none, and tells the wrapped protocol nothing more. *)
Theorem X5_disconnected_is_final fromJSON es s :
  state s = RSM.disconnected ->
  (forall i,
     sessionMachine_input fromJSON i s = (s, Raise NoTransition))
  /\ state (run fromJSON es s) = RSM.disconnected
  /\ requests (run fromJSON es s) = requests s
  /\ receivedData (run fromJSON es s) = receivedData s
  /\ connectionsLost (run fromJSON es s) = connectionsLost s.
Proof.
  intros Hd. split.
  - intros i. unfold sessionMachine_input.
    apply disconnected_RSM_input, Hd.
  - exact (keeps_run disconnected_stays fromJSON
             (disconnected_stays_event fromJSON) es s Hd).
Qed.

(** *** What the wrapped protocol was told *)


Section DeliveredGrows.

Variable sm : RSM.Input -> M unit.
Variable fromJSON : bytes -> option json.
Hypothesis Hsm : forall i s, keeps delivered_grows (sm i) s.


End DeliveredGrows.




(** ** The clocks *)

(** X7: [HeartbeatClock.stop] is permanent and idempotent: the clock is
    stopped afterwards, a second [stop] changes nothing, [schedule] raises
    [RuntimeError], and a clock that was running has no heartbeat pending
    any more. *)
Theorem X7_HeartbeatClock_stop_is_permanent h :
  stopped (HeartbeatClock_stop h) = true
  /\ HeartbeatClock_stop (HeartbeatClock_stop h) = HeartbeatClock_stop h
  /\ HeartbeatClock_schedule (HeartbeatClock_stop h) = Raise RuntimeError
  /\ (stopped h = false -> pendingHeartbeat (HeartbeatClock_stop h) = false).
Proof.
  destruct h as [[] p]; repeat split; intros; try reflexivity; discriminate.
Qed.

(** X8: a [TimeoutClock] that has not expired holds at most one delayed
    call: [start] arms it and a second [start] adds nothing; [stop] and
    [reset] both cancel the call and are the same operation; none of the
    three raises or touches anything but the clock. *)
Theorem X8_TimeoutClock_holds_one_call s :
  expired (timeoutClock s) = false ->
  TimeoutClock_start s
  = (set_timeoutClock {| expired := false; timeoutCall := true |} s, Ok tt)
  /\ TimeoutClock_start (fst (TimeoutClock_start s)) = TimeoutClock_start s
  /\ TimeoutClock_stop s
     = (set_timeoutClock {| expired := false; timeoutCall := false |} s, Ok tt)
  /\ TimeoutClock_reset s = TimeoutClock_stop s
  /\ TimeoutClock_stop (fst (TimeoutClock_start s)) = TimeoutClock_stop s.
Proof.
  intros H. destruct s as [k mx st buf cr rs rq fn dc smach tr reg bw tc td wp rd cl rqs].
  destruct tc as [e [|]]; simpl in H; subst; repeat split; reflexivity.
Qed.

(** ** Failures *)

(** X9: [_trapCancellation] swallows a [CancelledError] and nothing else:
    every other failure is raised again, itself. *)
Theorem X9_trapCancellation_traps_only_CancelledError failure :
  _trapCancellation CancelledError = Ok tt
  /\ (failure <> CancelledError -> _trapCancellation failure = Raise failure)
  /\ (_trapCancellation failure = Ok tt -> failure = CancelledError).
Proof.
  unfold _trapCancellation, getattr_trap.
  split; [reflexivity|].
  destruct (decide (failure = CancelledError)) as [->|Hne].
  - split; [congruence | reflexivity].
  - rewrite bool_decide_eq_false_2
      by (intros Hin; apply Hne; inversion Hin as [|? ? ? Hin'];
          [reflexivity | inversion Hin']).
    split; [reflexivity | discriminate].
Qed.

(** ** A session that is losing its connection *)

(** X10: after [loseConnection], and until the connection is lost, the
    session takes in nothing: received data is dropped without being
    looked at, invalid or not; a write and a heartbeat raise
    [NoTransition]; and a request that attaches when no close reason was
    stored is left as it came, not attached, not written to and not
    finished.  Nothing of the session changes in any of these. *)
Theorem X10_losing_connection_takes_nothing fromJSON s :
  losing_connection s ->
  sessionMachine s = true ->
  (forall data, event fromJSON (EReceive data) s = (s, Ok tt))
  /\ (forall data, event fromJSON (EWrite data) s = (s, Raise NoTransition))
  /\ event fromJSON EHeartbeat s = (s, Raise NoTransition)
  /\ (forall r, _closeReason s = None ->
                event fromJSON (EAttach r) s = (s, Ok tt)).
Proof.
  intros [Hst|Hst] Hsm; destruct s as [k mx st buf cr rs rq fn dc smach tr reg bw tc td wp rd cl rqs];
    simpl in *; subst; (split; [|split; [|split]]); intros;
    try (destruct k; reflexivity); subst; reflexivity.
Qed.

(** ** WebSocketProtocolWrapper: invalid input *)

(** X11: [WebSocketProtocolWrapper.dataReceived] never lets [InvalidData]
    out.  Input that [fromJSON] rejects closes the connection instead:
    [disconnecting] is set, [loseConnection] is called on the transport,
    and the wrapped protocol receives nothing. *)
Theorem X11_WebSocket_invalid_json_closes_connection fromJSON data s :
  is_InvalidData (snd (WebSocketProtocolWrapper_dataReceived fromJSON data s))
  = false
  /\ (data <> EmptyString -> fromJSON data = None ->
      WebSocketProtocolWrapper_dataReceived fromJSON data s
      = match transport s with
        | Some _ =>
            (set_transport (Some true) (set_disconnecting true s), Ok tt)
        | None => (set_disconnecting true s, Raise AttributeError)
        end).
Proof.
  assert (Hbad : data <> EmptyString -> fromJSON data = None ->
      WebSocketProtocolWrapper_dataReceived fromJSON data s
      = match transport s with
        | Some _ =>
            (set_transport (Some true) (set_disconnecting true s), Ok tt)
        | None => (set_disconnecting true s, Raise AttributeError)
        end).
  { intros Hne Hno. destruct data; [congruence|].
    unfold WebSocketProtocolWrapper_dataReceived,
      SockJSWireProtocolWrapper_dataReceived, try_except,
      WebSocketProtocolWrapper_loseConnection, completeLoseConnection.
    cbn [String.length Nat.eqb]. rewrite Hno. unfold raise, bind, modify, get.
    destruct s as [k mx st buf cr rs rq fn dc smach tr reg bw tc td wp rd cl rqs];
      cbn [transport set_disconnecting].
    destruct tr; reflexivity. }
  split; [|exact Hbad].
  destruct data as [|c rest]; [reflexivity|].
  destruct (fromJSON (String c rest)) as [decoded|] eqn:Hok.
  - unfold WebSocketProtocolWrapper_dataReceived,
      SockJSWireProtocolWrapper_dataReceived, try_except,
      WebSocketProtocolWrapper_jsonReceived,
      SockJSWireProtocolWrapper_jsonReceived.
    cbn [String.length Nat.eqb]. rewrite Hok.
    destruct (truthy decoded); [|reflexivity].
    pose proof (wrappedProtocol_dataReceived_not_InvalidData decoded s) as Hno.
    destruct (wrappedProtocol_dataReceived no_machine decoded s)
      as [s1 [u|e]]; [reflexivity|].
    destruct e; try reflexivity.
    + exfalso. eapply Hno. reflexivity.
  - rewrite Hbad by (first [discriminate | assumption | reflexivity]).
    destruct (transport s); reflexivity.
Qed.

(** ** XHRSession: one frame for each request *)

Ltac split_all := repeat match goal with |- _ /\ _ => split end.

(** X12: an [XHRSession] gives each request one frame and finishes it.  The
    first attach around a [SockJSProtocol] writes the open frame and
    finishes the request; a write to the attached request writes the data
    frame and finishes the request; an attach that finds writes pending
    flushes them as one frame and finishes the request.  Each time the
    session ends up detached, with nothing in its buffer. *)
Theorem X12_XHRSession_one_frame_per_request fromJSON :
  (forall maximum req,
     let s := fst (event fromJSON (EAttach req)
                     (new_session XHRSession maximum new_SockJSProtocol)) in
     written_to req s = [("o" ++ nl)%string]
     /\ finished_count req s = 1
     /\ request s = None
     /\ state s = RSM.connectedNoTransportEmptyBuffer)
  /\ (forall s r data,
        kind s = XHRSession ->
        state s = RSM.connectedHaveTransport ->
        request s = Some r ->
        requestSession s = true ->
        sessionMachine s = true ->
        expired (timeoutClock s) = false ->
        let s' := fst (event fromJSON (EWrite data) s) in
        written_to r s'
        = (written_to r s
             ++ [("a" ++ sockJSJSON (JArr data) ++ nl)%string])%list
        /\ finished_count r s' = S (finished_count r s)
        /\ request s' = None
        /\ state s' = RSM.connectedNoTransportEmptyBuffer
        /\ buffer s' = buffer s)
  /\ (forall s req,
        kind s = XHRSession ->
        state s = RSM.connectedNoTransportPending ->
        request s = None ->
        requestSession s = true ->
        sessionMachine s = true ->
        expired (timeoutClock s) = false ->
        let s' := fst (event fromJSON (EAttach req) s) in
        written_to req s'
        = (written_to req s
             ++ [("a" ++ sockJSJSON (JArr (buffer s)) ++ nl)%string])%list
        /\ finished_count req s' = S (finished_count req s)
        /\ request s' = None
        /\ state s' = RSM.connectedNoTransportEmptyBuffer
        /\ buffer s' = []).
Proof.
  split; [|split].
  - intros maximum req s. subst s. unfold event, new_session, new_SockJSProtocol.
    grind ltac:(idtac).
    requests_norm. split_all; reflexivity.
  - intros s r data Hk Hst Hreq Hrs Hsm Hexp s'. subst s'.
    destruct s as [k mx st buf cr rs rq fn dc smach tr reg bw tc td wp rd cl rqs].
    destruct tc as [ex tcall]. simpl in *. subst. unfold event.
    grind ltac:(idtac).
    all: requests_norm; split_all; reflexivity.
  - intros s req Hk Hst Hreq Hrs Hsm Hexp s'. subst s'.
    destruct s as [k mx st buf cr rs rq fn dc smach tr reg bw tc td wp rd cl rqs].
    destruct tc as [ex tcall]. simpl in *. subst. unfold event.
    grind ltac:(idtac).
    all: requests_norm; split_all; reflexivity.
Qed.

(** ** XHRStreamingSession: items without a length *)

Lemma sum_len_None_iff data :
  sum_len data = None <-> Exists (fun item => py_len item = None) data.
Proof.
  induction data as [|x rest IH]; simpl.
  - split; [discriminate | intros H; inversion H].
  - destruct (py_len x) as [n|] eqn:Hx.
    + destruct (sum_len rest) as [m|].
      * split; [discriminate|]. intros H. inversion H; subst; [congruence|].
        apply IH in H1. discriminate.
      * split; [intros _; right; apply IH; reflexivity | reflexivity].
    + split; [intros _; left; exact Hx | reflexivity].
Qed.

(** X13: [XHRStreamingSession.completeWrite] writes before it counts.  When
    an item of the data has no length (a number, a boolean, [null]),
    [sum(map(len, data))] raises [TypeError], but the data frame has been
    written to the request by then; the count is left as it was and the
    request stays attached. *)
Theorem X13_XHRStreamingSession_writes_before_it_counts fromJSON s r data :
  kind s = XHRStreamingSession ->
  state s = RSM.connectedHaveTransport ->
  request s = Some r ->
  requestSession s = true ->
  sessionMachine s = true ->
  Exists (fun item => py_len item = None) data ->
  let s' := fst (event fromJSON (EWrite data) s) in
  snd (event fromJSON (EWrite data) s) = Raise TypeError
  /\ written_to r s'
     = (written_to r s ++ [("a" ++ sockJSJSON (JArr data) ++ nl)%string])%list
  /\ finished_count r s' = finished_count r s
  /\ bytesWritten s' = bytesWritten s
  /\ request s' = Some r
  /\ state s' = RSM.connectedHaveTransport.
Proof.
  intros Hk Hst Hreq Hrs Hsm Hlen s'. subst s'.
  apply sum_len_None_iff in Hlen.
  destruct s as [k mx st buf cr rs rq fn dc smach tr reg bw tc td wp rd cl rqs].
  simpl in *. subst. unfold event.
  repeat (run_session; decide_same). rewrite Hlen.
  repeat (run_session; decide_same).
  requests_norm. split_all; reflexivity.
Qed.

(** ** Losing the connection while detached *)

(** X14: when the connection is lost with writes pending, the wrapped
    protocol is told [SessionTimeout] in place of [ConnectionDone] and any
    other reason as it is, while the termination deferred fails with the
    reason as it came.  The session is torn down: the machine is
    [disconnected], the protocol is unregistered and dropped, and machine
    and wrapper let go of each other. *)
Theorem X14_connectionLost_with_writes_pending fromJSON s reason calls :
  state s = RSM.connectedNoTransportPending ->
  requestSession s = true ->
  sessionMachine s = true ->
  registered s = true ->
  wrappedProtocol s = Some (RecordingProtocol calls) ->
  terminationDeferred s = None ->
  disconnecting s = false ->
  let s' := fst (event fromJSON (EConnectionLost reason) s) in
  snd (event fromJSON (EConnectionLost reason) s) = Ok tt
  /\ connectionsLost s' = (connectionsLost s ++ [timed_out_reason reason])%list
  /\ terminationDeferred s' = Some (Raise reason)
  /\ state s' = RSM.disconnected
  /\ wrappedProtocol s' = None
  /\ registered s' = false
  /\ sessionMachine s' = false
  /\ requestSession s' = false
  /\ requests s' = requests s.
Proof.
  intros Hst Hrs Hsm Hreg Hwp Htd Hdis s'. subst s'.
  destruct s as [k mx st buf cr rs rq fn dc smach tr reg bw tc td wp rd cl rqs].
  destruct tc as [ex tcall]. simpl in *. subst. unfold event.
  destruct ex, tcall, reason; run_session; split_all; reflexivity.
Qed.

(** X15: when the timeout of a detached session comes due, the session is
    torn down.  The wrapped protocol is told [ConnectionDone] if nothing
    was written since the detach and [SessionTimeout] if a write is
    pending; the termination deferred succeeds; the clock is expired and
    [disconnecting] is set. *)
Theorem X15_timeout_tears_down_detached_session fromJSON s calls :
  detached s ->
  requestSession s = true ->
  sessionMachine s = true ->
  registered s = true ->
  wrappedProtocol s = Some (RecordingProtocol calls) ->
  terminationDeferred s = None ->
  timeoutCall (timeoutClock s) = true ->
  let s' := fst (event fromJSON ETimeoutDue s) in
  connectionsLost s'
  = (connectionsLost s
       ++ [match state s with
           | RSM.connectedNoTransportPending => SessionTimeout
           | _ => ConnectionDone
           end])%list
  /\ terminationDeferred s' = Some (Ok tt)
  /\ timeoutClock s' = {| expired := true; timeoutCall := false |}
  /\ state s' = RSM.disconnected
  /\ disconnecting s' = true
  /\ wrappedProtocol s' = None
  /\ registered s' = false
  /\ sessionMachine s' = false
  /\ requests s' = requests s.
Proof.
  intros [Hst|Hst] Hrs Hsm Hreg Hwp Htd Htc s'; subst s';
    destruct s as [k mx st buf cr rs rq fn dc smach tr reg bw tc td wp rd cl rqs];
    destruct tc as [ex tcall]; simpl in *; subst; unfold event;
    run_session; split_all; reflexivity.
Qed.

(** X16: a write of no items while detached is a pending write all the
    same.  After [attach(r1); detach; write([])] the next request is
    written the empty data frame [a[]], and a timeout in place of that
    attach is reported to the wrapped protocol as [SessionTimeout]. *)
Theorem X16_empty_write_is_pending fromJSON k maximum r1 r2 :
  let s := run fromJSON [EAttach r1; EDetach; EWrite []]
             (new_session k maximum (RecordingProtocol 0)) in
  state s = RSM.connectedNoTransportPending
  /\ buffer s = []
  /\ written_to r2 (fst (event fromJSON (EAttach r2) s))
     = (written_to r2 s ++ [("a[]" ++ nl)%string])%list
  /\ connectionsLost (fst (event fromJSON ETimeoutDue s)) = [SessionTimeout].
Proof.
  cbn [run]. unfold event, new_session.
  destruct k;
    repeat (repeat (run_session; decide_same); unfold connectionDone;
            try break_match).
  all: requests_norm; split_all; reflexivity.
Qed.

(** ** SessionHouse: one session at a time *)

#[local] Instance termination_same_preorder : PreOrder termination_same.
Proof.
  split; unfold termination_same; [intros s | intros s1 s2 s3]; congruence.
Qed.

Ltac termination_leaf :=
  unfold termination_same, put_sockJSMachine, put_connectionMadeCalls;
  destruct_matches; reflexivity.

Section TerminationSame.

Variable sm : RSM.Input -> M unit.
Variable fromJSON : bytes -> option json.
Hypothesis Hsm : forall i s, keeps termination_same (sm i) s.

Lemma termination_same_RSM_input i s :
  keeps termination_same (RSM_input sm fromJSON i) s.
Proof. keeps_go no_special termination_leaf. Qed.

End TerminationSame.

(** No input of the machine fires the termination deferred: only the
    wrapper's [connectionLost] and the timeout do. *)
Lemma termination_same_sessionMachine_input fromJSON i s :
  keeps termination_same (sessionMachine_input fromJSON i) s.
Proof.
  unfold sessionMachine_input.
  do 3 (apply termination_same_RSM_input; intros).
  apply keeps_raise. typeclasses eauto.
Qed.

Lemma termination_same_attach fromJSON req s :
  terminationDeferred (fst (session_makeConnectionFromRequest fromJSON req s))
  = terminationDeferred s.
Proof.
  pose proof (termination_same_sessionMachine_input fromJSON) as Hsm.
  assert (K : keeps termination_same
                (session_makeConnectionFromRequest fromJSON req) s)
    by keeps_go no_special termination_leaf.
  exact K.
Qed.

Lemma termination_same_receive fromJSON data s :
  terminationDeferred (fst (session_dataReceived fromJSON data s))
  = terminationDeferred s.
Proof.
  pose proof (termination_same_sessionMachine_input fromJSON) as Hsm.
  assert (K : keeps termination_same (session_dataReceived fromJSON data) s)
    by keeps_go no_special termination_leaf.
  exact K.
Qed.

(** A call that does not fire the deferred only replaces the session. *)
Lemma on_session_quiet {A} sessionID (call : M A) h session :
  sessions h !! sessionID = Some session ->
  terminationDeferred (fst (call session)) = terminationDeferred session ->
  on_session sessionID call h
  = ({| sessions := <[sessionID := fst (call session)]> (sessions h);
        logged := logged h |},
     snd (call session)).
Proof.
  intros Hin Hsame. unfold on_session. rewrite Hin.
  destruct (call session) as [session' result]. cbn [fst snd] in *.
  rewrite Hsame. destruct (terminationDeferred session); reflexivity.
Qed.

(** X17: the registry works on one session at a time, the one the path
    names.  [attachToSession] registers a new session under the
    identifier when there is none and attaches the request to the session
    found there; [writeToSession] hands the content to the session found
    there and creates none: with no session under the identifier it
    returns [False] and changes nothing.  Neither touches a session
    registered under another identifier, and neither logs anything. *)
Theorem X17_registry_works_on_the_named_session fromJSON :
  (forall factory postpath req h sessionID,
     validateAndExtractSessionID postpath = Some sessionID ->
     let session := default factory (sessions h !! sessionID) in
     let h' := fst (attachToSession fromJSON factory postpath req h) in
     sessions h' !! sessionID
     = Some (fst (session_makeConnectionFromRequest fromJSON req session))
     /\ (forall other, other <> sessionID ->
                       sessions h' !! other = sessions h !! other)
     /\ logged h' = logged h)
  /\ (forall postpath content h sessionID session,
        validateAndExtractSessionID postpath = Some sessionID ->
        sessions h !! sessionID = Some session ->
        let h' := fst (writeToSession fromJSON postpath content h) in
        sessions h' !! sessionID
        = Some (fst (session_dataReceived fromJSON content session))
        /\ (forall other, other <> sessionID ->
                          sessions h' !! other = sessions h !! other)
        /\ logged h' = logged h)
  /\ (forall postpath content h sessionID,
        validateAndExtractSessionID postpath = Some sessionID ->
        sessions h !! sessionID = None ->
        writeToSession fromJSON postpath content h = (h, Ok false)).
Proof.
  split; [|split].
  - intros factory postpath req h sessionID Hid session h'.
    subst session h'. unfold attachToSession. rewrite Hid.
    destruct (sessions h !! sessionID) as [session|] eqn:Hin; cbn [default].
    + rewrite (on_session_quiet _ _ _ session Hin)
        by apply termination_same_attach.
      destruct (snd (session_makeConnectionFromRequest fromJSON req session));
        cbn [fst sessions logged];
        (split; [apply lookup_insert_eq|]);
        (split; [|reflexivity]);
        intros other Hne; apply lookup_insert_ne; congruence.
    + rewrite (on_session_quiet _ _ _ factory)
        by (first [apply lookup_insert_eq | apply termination_same_attach]).
      destruct (snd (session_makeConnectionFromRequest fromJSON req factory));
        cbn [fst sessions logged];
        (split; [apply lookup_insert_eq|]);
        (split; [|reflexivity]);
        intros other Hne; rewrite !lookup_insert_ne by congruence;
        reflexivity.
  - intros postpath content h sessionID session Hid Hin h'. subst h'.
    unfold writeToSession. rewrite Hid, Hin.
    rewrite (on_session_quiet _ _ _ session Hin)
      by apply termination_same_receive.
    destruct (snd (session_dataReceived fromJSON content session));
      cbn [fst sessions logged];
      (split; [apply lookup_insert_eq|]);
      (split; [|reflexivity]);
      intros other Hne; apply lookup_insert_ne; congruence.
  - intros postpath content h sessionID Hid Hin.
    unfold writeToSession. rewrite Hid, Hin. reflexivity.
Qed.

(** ** SockJSProtocol before it is connected *)

(** X18: a [SockJSProtocol] that was never connected.  A write, received
    data and a heartbeat raise [NoTransition] and change nothing.
    [connectionLost] raises [NoTransition] too, since [notYetConnected]
    has no edge for [close]: the machine is kept and the wrapped protocol
    is not told.  [loseConnection] is accepted, writes no close frame
    and leaves the heartbeat clock unstopped; after it [connectionLost]
    goes through, drops the machine and tells the wrapped protocol, and a
    second [connectionLost] raises [AttributeError]. *)
Theorem X18_SockJSProtocol_never_connected sm s m calls reason :
  wrappedProtocol s = Some (SockJSProtocol (Some m) calls) ->
  sj_state m = SJM.notYetConnected ->
  (forall data, SockJSProtocol_write sm data s = (s, Raise NoTransition))
  /\ (forall data,
        SockJSProtocol_dataReceived sm data s = (s, Raise NoTransition))
  /\ HeartbeatClock__sendHeartbeat sm s = (s, Raise NoTransition)
  /\ SockJSProtocol_connectionLost sm reason s = (s, Raise NoTransition)
  /\ (let s1 := set_wrappedProtocol
                  (Some (SockJSProtocol
                           (Some (set_sj_state SJM.disconnected m)) calls))
                  s in
      let s2 := set_connectionsLost (connectionsLost s ++ [reason])%list
                  (set_wrappedProtocol (Some (SockJSProtocol None calls)) s) in
      SockJSProtocol_loseConnection sm s = (s1, Ok tt)
      /\ SockJSProtocol_connectionLost sm reason s1 = (s2, Ok tt)
      /\ SockJSProtocol_connectionLost sm reason s2
         = (s2, Raise AttributeError)).
Proof.
  intros Hw Hst.
  destruct s as [k mx st buf cr rs rq fn dc smach tr reg bw tc td wp rd cl rqs].
  destruct m as [sjst sjtr hb]. simpl in *. subst.
  split_all; intros; reflexivity.
Qed.

(** ** The wrapped protocol loses its connection once *)

#[local] Instance lost_once_preorder : PreOrder lost_once.
Proof.
  split.
  - intros s. split; auto.
  - intros s1 s2 s3 [A1 B1] [A2 B2]. split.
    + intros H1. destruct (A1 H1) as [H2 E2]. destruct (A2 H2) as [H3 E3].
      split; congruence.
    + destruct B1 as [E1|[H2 [reason E1]]].
      * destruct B2 as [E2|[H3 [reason E2]]].
        -- left. congruence.
        -- right. split; [exact H3|]. exists reason. congruence.
      * destruct (A2 H2) as [H3 E3]. right. split; [exact H3|].
        exists reason. congruence.
Qed.

Lemma lost_once_same s s' :
  state s' = state s -> connectionsLost s' = connectionsLost s ->
  lost_once s s'.
Proof. intros Hst Hcl. split; [intros H; split; congruence | left; exact Hcl]. Qed.

Ltac lost_leaf :=
  first
    [ apply lost_once_same;
      unfold put_sockJSMachine, put_connectionMadeCalls;
      destruct_matches; reflexivity
    | split;
      [ intros Hd;
        match goal with
        | H : RSM.upon _ _ = Some _ |- _ =>
            simpl in Hd; rewrite Hd in H; discriminate H
        end
      | left; reflexivity ] ].

Section LostOnce.

Variable sm : RSM.Input -> M unit.
Variable fromJSON : bytes -> option json.
Hypothesis Hsm : forall i s, keeps lost_once (sm i) s.

(** The input [connectionLost], state by state. *)
Lemma lost_once_connectionLost reason s :
  keeps lost_once (RSM_input sm fromJSON (RSM.connectionLost reason)) s.
Proof.
  unfold keeps.
  destruct s as [k mx st buf cr rs rq fn dc smach tr reg bw tc td wp rd cl rqs].
  destruct st;
    try (apply lost_once_same; reflexivity);
    (split; [intros Hd; discriminate Hd|]);
    grind ltac:(idtac); cbn [fst state connectionsLost];
    first [ left; reflexivity
          | right; split; [reflexivity | eexists; reflexivity] ].
Qed.

Lemma lost_once_RSM_input i s :
  keeps lost_once (RSM_input sm fromJSON i) s.
Proof.
  destruct i; try apply lost_once_connectionLost;
    keeps_go no_special lost_leaf.
Qed.

End LostOnce.

Lemma lost_once_sessionMachine_input fromJSON i s :
  keeps lost_once (sessionMachine_input fromJSON i) s.
Proof.
  unfold sessionMachine_input.
  do 3 (apply lost_once_RSM_input; intros).
  apply keeps_raise. typeclasses eauto.
Qed.

Lemma lost_once_event fromJSON e s :
  keeps lost_once (event fromJSON e) s.
Proof.
  pose proof (lost_once_sessionMachine_input fromJSON) as Hsm.
  keeps_go no_special lost_leaf.
Qed.

(** X19: the wrapped protocol is told at most once that its connection is
    lost.  Whatever is done to a session, either the wrapped protocol has
    been told nothing new, or it has been told once, with one reason, and
    the machine is [disconnected]; a new session therefore ends up with at
    most one reason recorded, whatever its history. *)
Theorem X19_connection_is_lost_once fromJSON es :
  (forall s,
     connectionsLost (run fromJSON es s) = connectionsLost s
     \/ (state (run fromJSON es s) = RSM.disconnected
         /\ exists reason,
              connectionsLost (run fromJSON es s)
              = (connectionsLost s ++ [reason])%list))
  /\ (forall k maximum wrapped,
        length (connectionsLost
                  (run fromJSON es (new_session k maximum wrapped))) <= 1).
Proof.
  assert (H : forall s, lost_once s (run fromJSON es s))
    by exact (keeps_run lost_once fromJSON (lost_once_event fromJSON) es).
  split.
  - intros s. apply H.
  - intros k maximum wrapped.
    destruct (H (new_session k maximum wrapped)) as [_ [E|[_ [reason E]]]];
      rewrite E; simpl; lia.
Qed.

(** ** XHRStreamingSession: the count stays within its bounds *)

#[local] Instance count_stays_in_bounds_preorder :
  PreOrder count_stays_in_bounds.
Proof.
  split.
  - intros s. split; auto.
  - intros s1 s2 s3 [M1 B1] [M2 B2]. split; [congruence | auto].
Qed.

Lemma count_stays_same s s' :
  maximumBytes s' = maximumBytes s -> bytesWritten s' = bytesWritten s ->
  count_stays_in_bounds s s'.
Proof.
  intros Hm Hb. split; [exact Hm|]. unfold count_in_bounds.
  rewrite Hm, Hb. auto.
Qed.

Ltac count_leaf :=
  apply count_stays_same;
  unfold put_sockJSMachine, put_connectionMadeCalls;
  destruct_matches; reflexivity.

Section CountInBounds.

Variable sm : RSM.Input -> M unit.
Variable fromJSON : bytes -> option json.
Hypothesis Hsm : forall i s, keeps count_stays_in_bounds (sm i) s.

(** [completeWrite] adds to the count and, at [maximumBytes], resets it
    before it detaches. *)
Lemma count_stays_completeWrite data s :
  keeps count_stays_in_bounds (XHRStreamingSession_completeWrite sm data) s.
Proof.
  unfold XHRStreamingSession_completeWrite.
  apply keeps_bind; [typeclasses eauto | keeps_go no_special count_leaf |].
  intros _ s1. destruct (sum_len data) as [n|]; [|apply keeps_raise; typeclasses eauto].
  unfold keeps, bind, modify, get. cbn [fst].
  destruct s1 as [k mx st buf cr rs rq fn dc smach tr reg bw tc td wp rd cl rqs].
  cbn [bytesWritten maximumBytes set_bytesWritten].
  destruct (Z.leb_spec mx (bw + Z.of_nat n)) as [Hle|Hlt].
  - match goal with
    | |- count_stays_in_bounds ?a (fst (detachFromRequest sm ?b)) =>
        transitivity b;
        [ split; [reflexivity|]; unfold count_in_bounds; simpl; lia
        | change (keeps count_stays_in_bounds (detachFromRequest sm) b);
          keeps_go no_special count_leaf ]
    end.
  - cbn [fst]. split; [reflexivity|]. unfold count_in_bounds. simpl. lia.
Qed.

Ltac count_special :=
  idtac;
  lazymatch goal with
  | |- keeps _ (XHRStreamingSession_completeWrite _ _) _ =>
      apply count_stays_completeWrite
  end.

Lemma count_stays_RSM_input i s :
  keeps count_stays_in_bounds (RSM_input sm fromJSON i) s.
Proof. keeps_go count_special count_leaf. Qed.

End CountInBounds.

Lemma count_stays_sessionMachine_input fromJSON i s :
  keeps count_stays_in_bounds (sessionMachine_input fromJSON i) s.
Proof.
  unfold sessionMachine_input.
  do 3 (apply count_stays_RSM_input; intros).
  apply keeps_raise. typeclasses eauto.
Qed.

Lemma count_stays_event fromJSON e s :
  keeps count_stays_in_bounds (event fromJSON e) s.
Proof.
  pose proof (count_stays_sessionMachine_input fromJSON) as Hsm.
  keeps_go ltac:(idtac; lazymatch goal with
                 | |- keeps _ (XHRStreamingSession_completeWrite _ _) _ =>
                     apply count_stays_completeWrite; exact Hsm
                 end)
           count_leaf.
Qed.

(** X20: the count of an [XHRStreamingSession] stays within its bounds.
    [maximumBytes] never changes, and a count that is at least 0 and
    below [maximumBytes] is so again after anything that is done to the
    session: a write that takes it to [maximumBytes] or beyond resets it
    to 0.  With a positive [maximumBytes] this holds of a session from
    the start. *)
Theorem X20_bytesWritten_stays_below_maximumBytes fromJSON es :
  (forall s,
     maximumBytes (run fromJSON es s) = maximumBytes s
     /\ (count_in_bounds s -> count_in_bounds (run fromJSON es s)))
  /\ (forall k maximum wrapped,
        (0 < maximum)%Z ->
        count_in_bounds (run fromJSON es (new_session k maximum wrapped))).
Proof.
  assert (H : forall s, count_stays_in_bounds s (run fromJSON es s))
    by exact (keeps_run count_stays_in_bounds fromJSON
                (count_stays_event fromJSON) es).
  split; [exact H|].
  intros k maximum wrapped Hpos.
  apply (H (new_session k maximum wrapped)).
  unfold count_in_bounds. simpl. lia.
Qed.

(** ** SockJSProtocol while it is connected *)

(** X21: a connected [SockJSProtocol] over a plain session with a request
    attached.  A write goes to the request as one data frame and
    schedules the next heartbeat.  [loseConnection] stores the close
    reason [GO_AWAY] with the session without writing it, finishes the
    request, makes the session lose its connection, and stops and drops
    the heartbeat clock at once, so that a heartbeat that comes due
    afterwards raises [NoTransition] and writes nothing. *)
Theorem X21_SockJSProtocol_connected fromJSON s r m calls h t :
  kind s = RequestSessionProtocolWrapper ->
  state s = RSM.connectedHaveTransport ->
  request s = Some r ->
  requestSession s = true ->
  sessionMachine s = true ->
  disconnecting s = false ->
  transport s = Some t ->
  expired (timeoutClock s) = false ->
  wrappedProtocol s = Some (SockJSProtocol (Some m) calls) ->
  sj_state m = SJM.connected ->
  sj_transport m = true ->
  heartbeater m = Some h ->
  stopped h = false ->
  let sm := sessionMachine_input fromJSON in
  (forall data,
     let s' := fst (SockJSProtocol_write sm data s) in
     snd (SockJSProtocol_write sm data s) = Ok tt
     /\ written_to r s'
        = (written_to r s
             ++ [("a" ++ sockJSJSON (JArr data) ++ nl)%string])%list
     /\ finished_count r s' = finished_count r s
     /\ wrappedProtocol s'
        = Some (SockJSProtocol
                  (Some (set_heartbeater
                           (Some {| stopped := false;
                                    pendingHeartbeat := true |}) m))
                  calls))
  /\ (let s' := fst (SockJSProtocol_loseConnection sm s) in
      snd (SockJSProtocol_loseConnection sm s) = Ok tt
      /\ _closeReason s' = Some GO_AWAY
      /\ written_to r s' = written_to r s
      /\ finished_count r s' = S (finished_count r s)
      /\ request s' = None
      /\ state s' = RSM.loseConnectionEmptyBuffer
      /\ disconnecting s' = true
      /\ transport s' = Some true
      /\ wrappedProtocol s'
         = Some (SockJSProtocol
                   (Some {| sj_state := SJM.disconnected;
                            sj_transport := false;
                            heartbeater := None |})
                   calls)
      /\ HeartbeatClock__sendHeartbeat sm s' = (s', Raise NoTransition)).
Proof.
  intros Hk Hst Hreq Hrs Hsm Hdis Htr Hexp Hwp Hsj Hsjt Hhb Hstop sm.
  subst sm.
  destruct s as [k mx st buf cr rs rq fn dc smach tr reg bw tc td wp rd cl rqs].
  destruct m as [sjst sjtr hb]. destruct h as [hstop hpend].
  destruct tc as [ex tcall]. simpl in *. subst.
  split.
  - intros data. grind ltac:(idtac).
    all: requests_norm; split_all; reflexivity.
  - grind ltac:(idtac).
    all: requests_norm; split_all; reflexivity.
Qed.

(** ** The further theorems at concrete sessions *)

Ltac by_computation :=
  first [ left; vm_compute; reflexivity
        | right; vm_compute; reflexivity
        | vm_compute; reflexivity ].

Lemma X2_witness :
  expired (timeoutClock (run reject_all [EAttach 2] example_expired)) = true.
Proof.
  refine (proj1 (X2_expired_timeout_is_final reject_all [EAttach 2]
                   example_expired _)).
  by_computation.
Defined.

Lemma X4_witness :
  terminationDeferred
    (run reject_all [EConnectionLost ConnectionLost] example_expired)
  = Some (Ok tt).
Proof.
  refine (X4_terminationDeferred_fires_once reject_all
            [EConnectionLost ConnectionLost] example_expired (Ok tt) _).
  by_computation.
Defined.

Lemma X5_witness :
  state (run reject_all [EAttach 2; EWrite []] example_expired)
  = RSM.disconnected.
Proof.
  refine (proj1 (proj2 (X5_disconnected_is_final reject_all
                          [EAttach 2; EWrite []] example_expired _))).
  by_computation.
Defined.

Lemma X8_witness :
  TimeoutClock_start (fst (TimeoutClock_start example_attached))
  = TimeoutClock_start example_attached.
Proof.
  refine (proj1 (proj2 (X8_TimeoutClock_holds_one_call example_attached _))).
  by_computation.
Defined.

Lemma X10_witness :
  event reject_all EHeartbeat example_losing
  = (example_losing, Raise NoTransition).
Proof.
  refine (proj1 (proj2 (proj2 (X10_losing_connection_takes_nothing reject_all
                                 example_losing _ _))));
    by_computation.
Defined.

Lemma X13_witness :
  snd (event reject_all (EWrite [JInt 1]) example_streaming)
  = Raise TypeError.
Proof.
  refine (proj1 (X13_XHRStreamingSession_writes_before_it_counts reject_all
                   example_streaming 1 [JInt 1] _ _ _ _ _ _));
    first [ by_computation | constructor; reflexivity ].
Defined.

Lemma X14_witness :
  connectionsLost
    (fst (event reject_all (EConnectionLost ConnectionDone) example_pending))
  = (connectionsLost example_pending ++ [timed_out_reason ConnectionDone])%list.
Proof.
  refine (proj1 (proj2 (X14_connectionLost_with_writes_pending reject_all
                          example_pending ConnectionDone 1 _ _ _ _ _ _ _)));
    by_computation.
Defined.

Lemma X15_witness :
  terminationDeferred (fst (event reject_all ETimeoutDue example_pending))
  = Some (Ok tt).
Proof.
  refine (proj1 (proj2 (X15_timeout_tears_down_detached_session reject_all
                          example_pending 1 _ _ _ _ _ _ _)));
    by_computation.
Defined.

Lemma X18_witness :
  SockJSProtocol_connectionLost no_machine ConnectionDone
    (new_session RequestSessionProtocolWrapper 0 new_SockJSProtocol)
  = (new_session RequestSessionProtocolWrapper 0 new_SockJSProtocol,
     Raise NoTransition).
Proof.
  refine (proj1 (proj2 (proj2 (proj2
            (X18_SockJSProtocol_never_connected no_machine
               (new_session RequestSessionProtocolWrapper 0 new_SockJSProtocol)
               {| sj_state := SJM.notYetConnected; sj_transport := false;
                  heartbeater := Some {| stopped := false;
                                         pendingHeartbeat := false |} |}
               0 ConnectionDone _ _)))));
    by_computation.
Defined.

Lemma X21_witness :
  _closeReason
    (fst (SockJSProtocol_loseConnection (sessionMachine_input reject_all)
            example_attached))
  = Some GO_AWAY.
Proof.
  refine (proj1 (proj2 (proj2
            (X21_SockJSProtocol_connected reject_all example_attached 1
               {| sj_state := SJM.connected; sj_transport := true;
                  heartbeater := Some {| stopped := false;
                                         pendingHeartbeat := true |} |}
               1 {| stopped := false; pendingHeartbeat := true |} false
               _ _ _ _ _ _ _ _ _ _ _ _ _))));
    by_computation.
Defined.

Lemma X12_witness :
  finished_count 1 (fst (event reject_all (EWrite [JStr "x"]) example_xhr))
  = S (finished_count 1 example_xhr).
Proof.
  refine (proj1 (proj2 (proj1 (proj2
            (X12_XHRSession_one_frame_per_request reject_all))
            example_xhr 1 [JStr "x"] _ _ _ _ _ _)));
    by_computation.
Defined.

Lemma X17_witness :
  writeToSession reject_all ["server"; "nobody"; "xhr"] "[]" example_house
  = (example_house, Ok false).
Proof.
  refine (proj2 (proj2 (X17_registry_works_on_the_named_session reject_all))
            ["server"; "nobody"; "xhr"] "[]" example_house "nobody" _ _);
    by_computation.
Defined.

Lemma X20_witness :
  count_in_bounds
    (run reject_all [EAttach 1; EWrite [JStr "abcdef"]]
       (new_session XHRStreamingSession 4 new_SockJSProtocol)).
Proof.
  refine (proj2 (X20_bytesWritten_stays_below_maximumBytes reject_all
                   [EAttach 1; EWrite [JStr "abcdef"]])
            XHRStreamingSession 4%Z new_SockJSProtocol _).
  reflexivity.
Defined.

Lemma X11_witness :
  WebSocketProtocolWrapper_dataReceived reject_all "x" example_attached
  = match transport example_attached with
    | Some _ =>
        (set_transport (Some true) (set_disconnecting true example_attached),
         Ok tt)
    | None => (set_disconnecting true example_attached, Raise AttributeError)
    end.
Proof.
  refine (proj2 (X11_WebSocket_invalid_json_closes_connection reject_all "x"
                   example_attached) _ _);
    first [ discriminate | reflexivity ].
Defined.

Lemma X9_witness :
  _trapCancellation ConnectionDone = Raise ConnectionDone.
Proof.
  refine (proj1 (proj2 (X9_trapCancellation_traps_only_CancelledError
                          ConnectionDone)) _).
  discriminate.
Defined.

Lemma X7_witness :
  pendingHeartbeat
    (HeartbeatClock_stop {| stopped := false; pendingHeartbeat := true |})
  = false.
Proof.
  refine (proj2 (proj2 (proj2
            (X7_HeartbeatClock_stop_is_permanent
               {| stopped := false; pendingHeartbeat := true |}))) _).
  reflexivity.
Defined.
